(** * XLS-Convert: the document-to-table pipeline

    A shallow embedding of the TypeScript sources that turn the text of a
    bank-statement PDF into a typed spreadsheet matrix, together with the
    properties the specification states about them, and of the modules
    around them: the environment, the download handler, the preview, the
    error classes and the retry helper.

    Conventions of the embedding.
    - A JavaScript string is a [string]; every [ascii] stands for one UTF-16
      code unit below 256, so [String.length] is the [length] property and
      [String.leb] is the code-unit order used by [Array.prototype.sort].
    - A JavaScript number is an exact rational [Q]: amounts are the decimals
      the statement prints, and neither rounding, NaN nor the infinities of
      binary floating point are part of the model.
    - [undefined] and [null] of an optional record field are both [None]
      (the sources always test the two together).
    - What the ECMAScript runtime provides and the repository does not
      define (date parsing, number formatting) is the class [Js.Runtime]. *)

From Stdlib Require Import ZArith QArith Qabs Lia Ascii String.
From stdpp Require Import base list strings pretty sorting gmap.

Local Open Scope string_scope.
Local Open Scope list_scope.
#[local] Set Warnings "-register-all".

(** ** The ECMAScript side *)

Module Js.

(** WhiteSpace and LineTerminator code units below 256:
    TAB, LF, VT, FF, CR, SP and NBSP. *)
Definition isWhiteSpace (c : ascii) : bool :=
  let n := N_of_ascii c in
  ((n =? 9) || (n =? 10) || (n =? 11) || (n =? 12) || (n =? 13)
   || (n =? 32) || (n =? 160))%N.

Fixpoint trimStart (s : string) : string :=
  match s with
  | EmptyString => EmptyString
  | String c rest => if isWhiteSpace c then trimStart rest else s
  end.

Definition trimEnd (s : string) : string :=
  String.rev (trimStart (String.rev s)).

(** [String.prototype.trim] *)
Definition trim (s : string) : string := trimEnd (trimStart s).

(** Lower-casing of one code unit: A-Z, and the Latin-1 capitals
    U+00C0..U+00DE except the multiplication sign U+00D7. *)
Definition lowerChar (c : ascii) : ascii :=
  let n := N_of_ascii c in
  if ((65 <=? n) && (n <=? 90))%N then ascii_of_N (n + 32)
  else if ((192 <=? n) && (n <=? 222) && negb (n =? 215))%N
       then ascii_of_N (n + 32)
       else c.

(** [String.prototype.toLowerCase] *)
Fixpoint toLowerCase (s : string) : string :=
  match s with
  | EmptyString => EmptyString
  | String c rest => String (lowerChar c) (toLowerCase rest)
  end.

(** [String.prototype.includes] *)
Fixpoint includes (s needle : string) : bool :=
  String.prefix needle s
  || match s with
     | EmptyString => false
     | String _ rest => includes rest needle
     end.

(** [String.prototype.split] with a one-character separator. *)
Fixpoint split_go (sep : ascii) (cur : string) (s : string) : list string :=
  match s with
  | EmptyString => [String.rev cur]
  | String c rest =>
      if Ascii.eqb c sep then String.rev cur :: split_go sep EmptyString rest
      else split_go sep (String c cur) rest
  end.
Definition split (sep : ascii) (s : string) : list string :=
  split_go sep EmptyString s.

Definition isDigit (c : ascii) : bool :=
  let n := N_of_ascii c in ((48 <=? n) && (n <=? 57))%N.

(** The regular expression [/^\d{4}-\d{2}-\d{2}$/]. *)
Definition matchesIsoDate (s : string) : bool :=
  match s with
  | String y1 (String y2 (String y3 (String y4 (String h1
    (String m1 (String m2 (String h2 (String d1 (String d2
    EmptyString))))))))) =>
      isDigit y1 && isDigit y2 && isDigit y3 && isDigit y4
      && Ascii.eqb h1 "-" && isDigit m1 && isDigit m2
      && Ascii.eqb h2 "-" && isDigit d1 && isDigit d2
  | _ => false
  end.

(** [Array.prototype.sort] without a comparator, on strings: ascending
    code-unit order.  ECMAScript leaves the algorithm open; on strings the
    result is the same for every conforming one. *)
Definition sort (l : list string) : list string :=
  merge_sort String.le l.

(** [x > y] on numbers. *)
Definition gt (x y : Q) : bool := negb (Qle_bool x y).

(** Dynamically typed values, as far as the sources inspect them. [VObj]
    is any other object. *)
Inductive Val :=
| VUndefined
| VNull
| VBool (b : bool)
| VNum (q : Q)
| VStr (s : string)
| VArr (elems : list Val)
| VObj.

(** ToBoolean *)
Definition truthy (v : Val) : bool :=
  match v with
  | VUndefined | VNull => false
  | VBool b => b
  | VNum q => negb (Qeq_bool q 0)
  | VStr s => negb (String.eqb s "")
  | VArr _ | VObj => true
  end.

Definition isString (v : Val) : bool :=
  match v with VStr _ => true | _ => false end.

(** [row[i]] on an array value. *)
Definition index (row : list Val) (i : nat) : Val :=
  default VUndefined (row !! i).

(** What the runtime supplies.  [Date_parse s] is the time value, in
    milliseconds, of [new Date(s)], [None] for an invalid date;
    [Number_toString] is [Number.prototype.toString()]; [Number_toFixed x d]
    is [x.toFixed(d)]. *)
Class Runtime := {
  Date_parse : string → option Z;
  Number_toString : Q → string;
  Number_toFixed : Q → nat → string
}.

Section to_string.
Context `{Runtime}.

(** [String(v)]; an array joins its elements with commas, [undefined]
    and [null] elements giving the empty string. *)
Fixpoint ToString (v : Val) : string :=
  match v with
  | VUndefined => "undefined"
  | VNull => "null"
  | VBool true => "true"
  | VBool false => "false"
  | VNum q => Number_toString q
  | VStr s => s
  | VArr elems =>
      (fix join (l : list Val) : string :=
         match l with
         | [] => ""
         | x :: rest =>
             let e := match x with
                      | VUndefined | VNull => ""
                      | _ => ToString x
                      end in
             match rest with
             | [] => e
             | _ => e +:+ "," +:+ join rest
             end
         end) elems
  | VObj => "[object Object]"
  end.
End to_string.

(** Errors: the [name] and [message] properties, and whether the object
    is an instance of [ProcessingCancelledError]. *)
Record Error := {
  name : string;
  message : string;
  cancelled : bool
}.

Definition mkError (msg : string) : Error :=
  {| name := "Error"; message := msg; cancelled := false |}.

Definition ProcessingCancelledError (msg : string) : Error :=
  {| name := "ProcessingCancelledError"; message := msg; cancelled := true |}.

Definition NetworkError (msg : string) : Error :=
  {| name := "NetworkError"; message := msg; cancelled := false |}.

(** A call either returns or throws. *)
Inductive Outcome (A : Type) :=
| returned (a : A)
| thrown (e : Error).
Arguments returned {A} a.
Arguments thrown {A} e.

(** A line written to the console: [console.warn(label, payload)] or
    [console.error(label, payload)], the payload as the strings it holds. *)
Inductive Console :=
| warn (label : string) (payload : list string)
| error (label : string) (payload : list string).

End Js.

(** ** pdf-utils: validation and the tabular formatter *)

Module PdfUtils.
Import Js.

Record Transaction := {
  date : option string;
  description : option string;
  debit : option Q;
  credit : option Q;
  balance : option Q
}.

Record Header := {
  bankName : option string;
  accountNumber : option string;
  accountHolderName : option string;
  statementPeriod : option string;
  statementDate : option string;
  openingBalance : option Q
}.

Record Footer := {
  closingBalance : option Q;
  totalDebits : option Q;
  totalCredits : option Q;
  totalWithdrawals : option Q;
  totalDeposits : option Q;
  summary : option string
}.

Record StructuredPdfDataOutput := {
  header : option Header;
  transactions : list Transaction;
  footer : option Footer
}.

Record ValidationResult := {
  isValid : bool;
  issues : list string;
  accuracyWarnings : list string
}.

(** [!s || s.trim() === ''] *)
Definition blank (s : option string) : bool :=
  match s with
  | None => true
  | Some s => String.eqb s "" || String.eqb (trim s) ""
  end.

(** The first [forEach]: one issue per missing field, date first. *)
Fixpoint missingFieldIssues (index : nat) (ts : list Transaction)
  : list string :=
  match ts with
  | [] => []
  | t :: rest =>
      (if blank (date t)
       then ["Transaction " +:+ pretty (index + 1) +:+ ": Missing date"]
       else [])
      ++ (if blank (description t)
          then ["Transaction " +:+ pretty (index + 1)
                +:+ ": Missing description"]
          else [])
      ++ missingFieldIssues (S index) rest
  end.

(** [transactions.map(t => t.date)
      .filter(d => typeof d === 'string' && d.trim() !== '').sort()] *)
Definition keptDate (t : Transaction) : option string :=
  match date t with
  | Some d => if negb (String.eqb (trim d) "") then Some d else None
  | None => None
  end.
Definition sortedDates (ts : list Transaction) : list string :=
  sort (omap keptDate ts).

Definition tolerance : Q := 1 # 100.

(** [(t.debit || 0)] and the [reduce] over it. *)
Definition orZero (x : option Q) : Q :=
  match x with
  | Some q => if truthy (VNum q) then q else 0%Q
  | None => 0%Q
  end.
Definition total (field : Transaction → option Q) (ts : list Transaction)
  : Q :=
  fold_left Qplus (map (λ t, orZero (field t)) ts) 0%Q.

Section with_runtime.
Context `{Runtime}.

(** [Math.abs((curr.getTime() - prev.getTime()) / (1000*60*60*24))];
    [None] is NaN, the result when either date is invalid. *)
Definition daysDiff (prev curr : string) : option Q :=
  match Date_parse prev, Date_parse curr with
  | Some p, Some c =>
      Some (Qabs ((inject_Z c - inject_Z p) / (1000 * 60 * 60 * 24))%Q)
  | _, _ => None
  end.

Definition gapMessage (prev curr : string) : string :=
  "Potential missing transactions between " +:+ prev +:+ " and " +:+ curr.

(** The loop [for (i = 1; i < dates.length; i++)] over adjacent dates. *)
Fixpoint dateGapIssues (dates : list string) : list string :=
  match dates with
  | prev :: (curr :: _) as rest =>
      (if match daysDiff prev curr with
          | Some d => gt d 30%Q
          | None => false
          end
       then [gapMessage prev curr]
       else [])
      ++ dateGapIssues rest
  | _ => []
  end.

(** One footer comparison: nothing when the footer field is absent or the
    difference is within the tolerance. *)
Definition mismatch (label lead : string) (extracted : Q)
  (shown : option Q) : list string :=
  match shown with
  | Some f =>
      let diff := Qabs (extracted - f)%Q in
      if gt diff tolerance
      then [label +:+ " mismatch: " +:+ lead +:+ " "
            +:+ Number_toFixed extracted 2
            +:+ ", Footer shows " +:+ Number_toFixed f 2
            +:+ " (Difference: " +:+ Number_toFixed diff 2 +:+ ")"]
      else []
  | None => []
  end.

Definition footerWarnings (ts : list Transaction) (f : Footer)
  : list string :=
  let extractedTotalDebits := total debit ts in
  let extractedTotalCredits := total credit ts in
  mismatch "Total debits" "Extracted" extractedTotalDebits (totalDebits f)
  ++ mismatch "Total credits" "Extracted" extractedTotalCredits
       (totalCredits f)
  ++ (match closingBalance f, last ts with
      | Some cb, Some lastTransaction =>
          match balance lastTransaction with
          | Some b =>
              mismatch "Closing balance" "Last transaction balance" b
                (Some cb)
          | None => []
          end
      | _, _ => []
      end)
  ++ mismatch "Total withdrawals" "Extracted" extractedTotalDebits
       (totalWithdrawals f)
  ++ mismatch "Total deposits" "Extracted" extractedTotalCredits
       (totalDeposits f).

(** [(x.toString().split('.')[1] || '').length] *)
Definition decimalPlaces (x : Q) : nat :=
  String.length
    (match split "." (Number_toString x) with
     | _ :: frac :: _ => frac
     | _ => ""
     end).

Definition precisionWarning (index : nat) (what : string) (x : option Q)
  : list string :=
  match x with
  | Some v =>
      if (2 <? decimalPlaces v)%nat
      then ["Transaction " +:+ pretty (index + 1) +:+ ": " +:+ what
            +:+ " has more than 2 decimal places ("
            +:+ Number_toString v +:+ ")"]
      else []
  | None => []
  end.

(** The second [forEach]. *)
Fixpoint precisionWarnings (index : nat) (ts : list Transaction)
  : list string :=
  match ts with
  | [] => []
  | t :: rest =>
      precisionWarning index "Debit" (debit t)
      ++ precisionWarning index "Credit" (credit t)
      ++ precisionWarning index "Balance" (balance t)
      ++ precisionWarnings (S index) rest
  end.

Definition validateTransactionData (transactions : list Transaction)
  (footer : option Footer) : ValidationResult :=
  match transactions with
  | [] =>
      {| isValid := false;
         issues := ["No transactions found"];
         accuracyWarnings := [] |}
  | _ =>
      let dates := sortedDates transactions in
      let issues :=
        missingFieldIssues 0 transactions
        ++ (if (1 <? length dates)%nat then dateGapIssues dates else [])
      in
      let accuracyWarnings :=
        (match footer with
         | Some f => footerWarnings transactions f
         | None => []
         end)
        ++ precisionWarnings 0 transactions
      in
      {| isValid := (length issues =? 0)%nat;
         issues := issues;
         accuracyWarnings := accuracyWarnings |}
  end.

(** The single-cell matrix returned when nothing was extracted. *)
Definition noData : list (list Val) :=
  [[VStr "No financial transaction data could be extracted from the document."]].

(** [if (v) excelData.push([label, v])] for a text field. *)
Definition textRow (label : string) (v : option string)
  : list (list Val) :=
  match v with
  | Some s => if truthy (VStr s) then [[VStr label; VStr s]] else []
  | None => []
  end.

(** [if (v !== undefined && v !== null) excelData.push([label, v])] *)
Definition numberRow (label : string) (v : option Q) : list (list Val) :=
  match v with
  | Some q => [[VStr label; VNum q]]
  | None => []
  end.

Definition headerRows (h : Header) : list (list Val) :=
  textRow "Bank Name:" (bankName h)
  ++ textRow "Account Number:" (accountNumber h)
  ++ textRow "Account Holder:" (accountHolderName h)
  ++ textRow "Statement Period:" (statementPeriod h)
  ++ textRow "Statement Date:" (statementDate h)
  ++ numberRow "Opening Balance:" (openingBalance h)
  ++ [[]].

Definition transactionHeaders : list Val :=
  [VStr "Date"; VStr "Description"; VStr "Paid Out"; VStr "Paid In";
   VStr "Balance"].

Definition numberOrNull (x : option Q) : Val :=
  match x with Some q => VNum q | None => VNull end.

Definition dataRow (t : Transaction) : list Val :=
  [VStr (default "" (date t)); VStr (default "" (description t));
   numberOrNull (debit t); numberOrNull (credit t);
   numberOrNull (balance t)].

Definition footerRows (f : Footer) : list (list Val) :=
  numberRow "Closing Balance:" (closingBalance f)
  ++ numberRow "Total Debits:" (totalDebits f)
  ++ numberRow "Total Credits:" (totalCredits f)
  ++ numberRow "Total Withdrawals:" (totalWithdrawals f)
  ++ numberRow "Total Deposits:" (totalDeposits f)
  ++ textRow "Summary:" (summary f).

(** The two [console.warn] calls that close the function. *)
Definition validationLog (v : ValidationResult) : list Console :=
  (if negb (isValid v) && (0 <? length (issues v))%nat
   then [warn "Data validation issues:" (issues v)]
   else [])
  ++ (if (0 <? length (accuracyWarnings v))%nat
      then [warn "Accuracy warnings (totals may not match PDF):"
              (accuracyWarnings v)]
      else []).

(** Returns the console output and the matrix. *)
Definition formatStructuredDataForExcel
  (structuredData : option StructuredPdfDataOutput)
  : list Console * list (list Val) :=
  match structuredData with
  | None => ([], noData)
  | Some d =>
      if (length (transactions d) =? 0)%nat then ([], noData)
      else
        let excelData :=
          (match header d with Some h => headerRows h | None => [] end)
          ++ [transactionHeaders]
          ++ map dataRow (transactions d) in
        if (length excelData
            =? (match header d with Some _ => 7 | None => 1 end))%nat
        then ([], noData)
        else
          let excelData :=
            excelData
            ++ (match footer d with Some _ => [[]] | None => [] end)
            ++ (match footer d with
                | Some f => footerRows f
                | None => []
                end) in
          let validation :=
            validateTransactionData (transactions d) (footer d) in
          (validationLog validation, excelData)
  end.

End with_runtime.

End PdfUtils.

(** ** excel-export: validation of the matrix, table bounds, cell typing *)

Module ExcelExport.
Import Js.

Record Validation := {
  isValid : bool;
  error : option string
}.

(** The inner loop of [validateDataBeforeExport]: the first cell that is
    neither null, a string, a number nor undefined. *)
Fixpoint checkCells (rowIndex colIndex : nat) (row : list Val)
  : option string :=
  match row with
  | [] => None
  | cell :: rest =>
      match cell with
      | VNull | VStr _ | VNum _ | VUndefined =>
          checkCells rowIndex (S colIndex) rest
      | _ =>
          Some ("Invalid cell type at row " +:+ pretty (rowIndex + 1)
                +:+ ", column " +:+ pretty (colIndex + 1))
      end
  end.

(** The outer loop. *)
Fixpoint checkRows (rowIndex : nat) (data : list Val) : option string :=
  match data with
  | [] => None
  | row :: rest =>
      match row with
      | VArr cells =>
          match checkCells rowIndex 0 cells with
          | Some e => Some e
          | None => checkRows (S rowIndex) rest
          end
      | _ => Some ("Row " +:+ pretty (rowIndex + 1) +:+ " is not an array")
      end
  end.

(** [data] is [None] when the argument is null or undefined. *)
Definition validateDataBeforeExport (data : option (list Val))
  : Validation :=
  match data with
  | None | Some [] =>
      {| isValid := false; error := Some "No data to export" |}
  | Some rows =>
      match checkRows 0 rows with
      | Some e => {| isValid := false; error := Some e |}
      | None => {| isValid := true; error := None |}
      end
  end.

Record TableBounds := {
  startRow : Z;
  endRow : Z;
  headerRow : Z
}.

Section with_runtime.
Context `{Runtime}.

(** [String(row[0] || '').toLowerCase()] *)
Definition firstCell (row : list Val) : string :=
  toLowerCase (let c := index row 0 in
               if truthy c then ToString c else ToString (VStr "")).

(** The first loop of [findTransactionTableBounds]; [-1] when no row
    qualifies. [i] is the index of the head of [rows]. *)
Fixpoint findHeaderRow (i : nat) (rows : list Val) : Z :=
  match rows with
  | [] => -1
  | row :: rest =>
      match row with
      | VArr cells =>
          if (5 <=? length cells)%nat && String.eqb (firstCell cells) "date"
          then Z.of_nat i
          else findHeaderRow (S i) rest
      | _ => findHeaderRow (S i) rest
      end
  end.

Definition isBoundaryLabel (firstCell : string) : bool :=
  String.eqb firstCell ""
  || String.eqb firstCell "closing balance"
  || String.eqb firstCell "total debits"
  || String.eqb firstCell "total credits"
  || String.eqb firstCell "summary".

(** The second loop; [endRow] is the value kept when the loop never
    breaks. *)
Fixpoint findEndRow (i : nat) (rows : list Val) (endRow : Z) : Z :=
  match rows with
  | [] => endRow
  | row :: rest =>
      match row with
      | VArr cells =>
          if (0 <? length cells)%nat && isBoundaryLabel (firstCell cells)
          then Z.of_nat i - 1
          else findEndRow (S i) rest endRow
      | _ => findEndRow (S i) rest endRow
      end
  end.

Definition findTransactionTableBounds (data : list Val) : TableBounds :=
  let headerRow := findHeaderRow 0 data in
  if (headerRow =? -1)%Z
  then {| startRow := 0;
          endRow := Z.of_nat (length data) - 1;
          headerRow := 0 |}
  else
    let first := S (Z.to_nat headerRow) in
    let endRow :=
      findEndRow first (drop first data) (Z.of_nat (length data) - 1) in
    {| startRow := headerRow; endRow := endRow; headerRow := headerRow |}.

(** [cell.v]: the value taken from the matrix, or the [Date] object the
    typing pass puts in its place, given by its time value. *)
Inductive CellValue :=
| Raw (x : Val)
| DateObject (time : Z).

(** A worksheet cell: value [v], type tag [t], number format [z]. *)
Record Cell := {
  v : CellValue;
  t : string;
  z : option string
}.

(** [XLSX.utils.aoa_to_sheet] with its default options, cell by cell
    (SheetJS): no cell for [undefined] or [null]; type "n" for a number,
    "b" for a boolean, "s" for a string.  Only these values pass the
    validation that precedes the call. *)
Definition aoa_cell (x : Val) : option Cell :=
  match x with
  | VUndefined | VNull => None
  | VNum _ => Some {| v := Raw x; t := "n"; z := None |}
  | VBool _ => Some {| v := Raw x; t := "b"; z := None |}
  | _ => Some {| v := Raw x; t := "s"; z := None |}
  end.

Definition rowCells (row : Val) : list Val :=
  match row with VArr cells => cells | _ => [] end.

Definition aoa_to_sheet (data : list Val) : list (list (option Cell)) :=
  map (λ row, map aoa_cell (rowCells row)) data.

(** [typeof cell.v === 'number'] *)
Definition holdsNumber (c : Cell) : bool :=
  match v c with Raw (VNum _) => true | _ => false end.

(** [typeof cell.v === 'string' && cell.v.match(/^\d{4}-\d{2}-\d{2}$/)] *)
Definition holdsIsoDate (c : Cell) : bool :=
  match v c with Raw (VStr s) => matchesIsoDate s | _ => false end.

Definition text (c : Cell) : string :=
  match v c with Raw (VStr s) => s | _ => "" end.

(** The body of the typing loop for the cell at [row], [col]. *)
Definition typeCell (tableBounds : TableBounds) (row col : nat) (cell : Cell)
  : Cell :=
  let isInTransactionTable :=
    (startRow tableBounds <=? Z.of_nat row)%Z
    && (Z.of_nat row <=? endRow tableBounds)%Z in
  let isHeaderRow := (Z.of_nat row =? headerRow tableBounds)%Z in
  let isNumericColumn :=
    isInTransactionTable
    && ((col =? 2)%nat || (col =? 3)%nat || (col =? 4)%nat) in
  let isDateColumn :=
    isInTransactionTable && (col =? 0)%nat && negb isHeaderRow in
  let asNumber := {| v := v cell; t := "n"; z := Some "#,##0.00" |} in
  let asText := {| v := v cell; t := "s"; z := z cell |} in
  if isNumericColumn && negb isHeaderRow && holdsNumber cell
  then asNumber
  else if isDateColumn && holdsIsoDate cell
  then
    match Date_parse (text cell +:+ "T00:00:00") with
    | Some dateValue =>
        {| v := DateObject dateValue; t := "d"; z := Some "yyyy-mm-dd" |}
    | None => asText
    end
  else if holdsNumber cell then asNumber
  else asText.

Definition typeCells (tableBounds : TableBounds)
  (sheet : list (list (option Cell))) : list (list (option Cell)) :=
  imap (λ row cells, imap (λ col c, typeCell tableBounds row col <$> c) cells)
    sheet.

(** The inner loop of the column-width computation, from the top row. *)
Fixpoint widen (col : nat) (rows : list Val) (maxWidth : nat) : nat :=
  match rows with
  | [] => maxWidth
  | row :: rest =>
      match index (rowCells row) col with
      | VUndefined | VNull => widen col rest maxWidth
      | x =>
          let cellWidth := String.length (ToString x) `max` maxWidth in
          widen col rest ((cellWidth + 2) `min` 50)
      end
  end.

Definition columnWidth (data : list Val) (col : nat) : nat :=
  let maxWidth := widen col data 10 in
  let maxWidth := if (col =? 0)%nat then maxWidth `max` 12 else maxWidth in
  let maxWidth := if (col =? 1)%nat then maxWidth `max` 40 else maxWidth in
  let maxWidth := if (col =? 2)%nat then maxWidth `max` 15 else maxWidth in
  let maxWidth := if (col =? 3)%nat then maxWidth `max` 15 else maxWidth in
  let maxWidth := if (col =? 4)%nat then maxWidth `max` 18 else maxWidth in
  maxWidth.

(** [Math.max(...data.map(row => row.length))], on a non-empty matrix. *)
Definition maxCols (data : list Val) : nat :=
  foldr Nat.max 0%nat (map (λ row, length (rowCells row)) data).

(** [XLSX.utils.encode_cell({r, c: 0})]: column A, rows counted from 1. *)
Definition encode_cell_A (r : Z) : string := "A" +:+ pretty (r + 1)%Z.

Record Freeze := {
  xSplit : Z;
  ySplit : Z;
  topLeftCell : string
}.

Record Worksheet := {
  cells : list (list (option Cell));
  cols : list nat;
  freeze : option Freeze
}.

(** The worksheet [exportToExcel] hands to the workbook: the typed
    cells, the column widths and the frozen pane.  ([aoa_to_sheet]
    creates no merged ranges, so the reset of ['!merges'] does nothing.) *)
Definition buildWorksheet (data : list Val) : Worksheet :=
  let worksheet := aoa_to_sheet data in
  let tableBounds := findTransactionTableBounds data in
  {| cells := typeCells tableBounds worksheet;
     cols := map (columnWidth data) (seq 0 (maxCols data));
     freeze :=
       if (0 <=? headerRow tableBounds)%Z
       then Some {| xSplit := 0;
                    ySplit := headerRow tableBounds + 1;
                    topLeftCell :=
                      encode_cell_A (headerRow tableBounds + 1) |}
       else None |}.

(** What [exportToExcel] does to the outside, in order. *)
Inductive Effect :=
| console (line : Console)
| sheetCreated
| workbookCreated (sheet : Worksheet)
| writeFile (fileName : string).

(** [writeFails] is what [XLSX.writeFile] throws, if it throws: [Some
    None] for a thrown value that is not an [Error].  The result is the
    effects and the error thrown to the caller, if any. *)
Definition exportToExcel (writeFails : option (option Error))
  (data : option (list Val)) (fileName : string)
  : list Effect * option Error :=
  let validation := validateDataBeforeExport data in
  if negb (isValid validation)
  then
    ([console (Js.error "Data validation failed:"
                 (option_list (error validation)))],
     Some (mkError (match error validation with
                    | Some e => if truthy (VStr e) then e
                                else "Invalid data structure"
                    | None => "Invalid data structure"
                    end)))
  else
    let rows := default [] data in
    let worksheet := buildWorksheet rows in
    let done :=
      [sheetCreated; workbookCreated worksheet; writeFile fileName] in
    match writeFails with
    | None => (done, None)
    | Some raised =>
        (done
         ++ [console (Js.error "Error writing Excel file:"
                        (option_list (message <$> raised)))],
         Some (mkError ("Failed to export Excel file: "
                        +:+ match raised with
                            | Some e => message e
                            | None => "Unknown error"
                            end)))
    end.

End with_runtime.

End ExcelExport.

(** ** structure-pdf-data-flow: cleansing of the model's answer *)

Module StructureFlow.
Import Js.

(** A transaction as the model returned it: the schema is advisory, so
    [date] and [description] are inspected as dynamic values. *)
Record Transaction := {
  date : Val;
  description : Val;
  debit : option Q;
  credit : option Q;
  balance : option Q
}.

(** The [output] of the prompt; [transactions] is [None] when the field is
    missing or not an array. *)
Record Output := {
  header : option PdfUtils.Header;
  transactions : option (list Transaction);
  footer : option PdfUtils.Footer
}.

Record StructuredPdfDataOutput := {
  out_header : option PdfUtils.Header;
  out_transactions : list Transaction;
  out_footer : option PdfUtils.Footer
}.

(** [x && typeof x === 'string' && x.trim() !== ''] *)
Definition hasText (x : Val) : bool :=
  truthy x && isString x
  && match x with
     | VStr s => negb (String.eqb (trim s) "")
     | _ => false
     end.

(** The callback of the [filter]. *)
Definition keep (t : Transaction) : bool :=
  let hasDate := hasText (date t) in
  let hasDescription := hasText (description t) in
  hasDate && hasDescription.

(** The body of the flow, from the answer of the prompt ([None] when there
    is no output). *)
Definition structurePdfDataFlow (output : option Output)
  : list Console * Outcome StructuredPdfDataOutput :=
  match output with
  | None =>
      ([], thrown (mkError
             "AI failed to structure transaction data. Output was null."))
  | Some output =>
      match transactions output with
      | None =>
          ([warn "AI output was missing 'transactions' array. Returning empty list."
              []],
           returned {| out_header := header output;
                       out_transactions := [];
                       out_footer := footer output |})
      | Some ts =>
          let cleanedTransactions := filter (λ t, keep t = true) ts in
          ([], returned {| out_header := header output;
                           out_transactions := cleanedTransactions;
                           out_footer := footer output |})
      end
  end.

End StructureFlow.

(** ** page: choice between the direct text and the OCR fallback *)

Module Page.
Import Js.

Definition MIN_TEXT_LENGTH_FOR_TEXT_PDF : nat := 100.

(** A page of the document as the OCR path meets it: what rendering it to
    an image URI gives, and what the recognition call on that image gives
    ([result?.extractedText], [None] when absent). *)
Record PdfPage := {
  render : Outcome string;
  recognise : Outcome (option string)
}.

(** The mutable state of one run: the accumulator of the closure, the
    successive loading steps, the console, and the number of suspension
    points passed so far. *)
Record State := {
  ocrTextFromAllPages : string;
  loadingSteps : list string;
  consoleLog : list Console;
  clock : nat
}.

Definition start : State :=
  {| ocrTextFromAllPages := ""; loadingSteps := []; consoleLog := [];
     clock := 0 |}.

(** Stateful computations that may throw. *)
Definition M (A : Type) : Type := State → State * Outcome A.

Definition ret {A} (a : A) : M A := λ st, (st, returned a).
Definition throw {A} (e : Error) : M A := λ st, (st, thrown e).
Definition bind {A B} (m : M A) (k : A → M B) : M B :=
  λ st, match m st with
        | (st', returned a) => k a st'
        | (st', thrown e) => (st', thrown e)
        end.
Definition tryCatch {A} (body : M A) (handler : Error → M A) : M A :=
  λ st, match body st with
        | (st', thrown e) => handler e st'
        | done => done
        end.

Notation "'let!' x ':=' m 'in' k" := (bind m (λ x, k))
  (at level 10, x pattern, m at level 100, k at level 200).

Definition setLoadingStep (step : string) : M unit :=
  λ st, ({| ocrTextFromAllPages := ocrTextFromAllPages st;
            loadingSteps := loadingSteps st ++ [step];
            consoleLog := consoleLog st;
            clock := clock st |}, returned tt).

Definition log (line : Console) : M unit :=
  λ st, ({| ocrTextFromAllPages := ocrTextFromAllPages st;
            loadingSteps := loadingSteps st;
            consoleLog := consoleLog st ++ [line];
            clock := clock st |}, returned tt).

(** [ocrTextFromAllPages += more] *)
Definition append (more : string) : M unit :=
  λ st, ({| ocrTextFromAllPages := ocrTextFromAllPages st +:+ more;
            loadingSteps := loadingSteps st;
            consoleLog := consoleLog st;
            clock := clock st |}, returned tt).

(** [await call]: one suspension point, then the outcome of the call. *)
Definition await {A} (call : Outcome A) : M A :=
  λ st, ({| ocrTextFromAllPages := ocrTextFromAllPages st;
            loadingSteps := loadingSteps st;
            consoleLog := consoleLog st;
            clock := S (clock st) |}, call).

Definition newline : string := String (ascii_of_nat 10) EmptyString.

(** [logError] of the error handler: one [console.error] line. *)
Definition logError (e : Error) : M unit :=
  log (Js.error "[ERROR]" [message e]).

Section run.
(** The abort signal fires once [n] suspension points have passed
    ([abortAfter = Some n]) or never. *)
Variable abortAfter : option nat.

(** [signal.aborted] *)
Definition aborted : M bool :=
  λ st, (st, returned match abortAfter with
                      | Some n => (n <=? clock st)%nat
                      | None => false
                      end).

(** The callback handed to [convertPdfPagesToImageUrisIncremental]. *)
Definition onPageProcessed (page : PdfPage) (pageNum totalPages : nat)
  : M unit :=
  let! cancelledNow := aborted in
  if cancelledNow : bool
  then throw (ProcessingCancelledError "Processing was cancelled")
  else
    let! _ := setLoadingStep ("Scanning page " +:+ pretty pageNum +:+ " of "
                              +:+ pretty totalPages +:+ "...") in
    tryCatch
      (let! cancelledNow := aborted in
       if cancelledNow : bool
       then throw (ProcessingCancelledError "Processing was cancelled")
       else
         let! extractedText := await (recognise page) in
         match extractedText with
         | Some s =>
             if truthy (VStr s) then append (s +:+ newline +:+ newline)
             else ret tt
         | None => ret tt
         end)
      (λ e,
         if cancelled e || String.eqb (name e) "AbortError"
         then throw e
         else
           let! _ := log (Js.error ("Error processing page "
                                    +:+ pretty pageNum +:+ ":")
                            [message e]) in
           log (warn ("Page " +:+ pretty pageNum
                      +:+ " OCR failed, continuing with other pages...")
                  [])).

(** The page loop of [convertPdfPagesToImageUrisIncremental]. *)
Fixpoint renderPages (pageNum totalPages : nat) (pages : list PdfPage)
  : M unit :=
  match pages with
  | [] => ret tt
  | page :: rest =>
      let! cancelledNow := aborted in
      if cancelledNow : bool
      then throw (mkError "PDF to image conversion was cancelled")
      else
        let! imageUri := await (render page) in
        let! _ := onPageProcessed page pageNum totalPages in
        renderPages (S pageNum) totalPages rest
  end.

(** The document is the one the direct extraction has just read, so
    opening it again succeeds; [pages] are its pages. *)
Definition convertPdfPagesToImageUrisIncremental (pages : list PdfPage)
  : M unit :=
  tryCatch (renderPages 1 (length pages) pages)
    (λ e,
       let! cancelledNow := aborted in
       if cancelledNow || includes (message e) "cancelled"
       then throw (ProcessingCancelledError
                     "PDF to image conversion was cancelled")
       else
         let! _ := logError e in
         if includes (message e) "network" || includes (message e) "fetch"
         then throw (NetworkError
                       "Network error while converting PDF pages to images. Please check your connection and try again.")
         else throw (mkError
                       "Failed to convert PDF pages to images. Please ensure the file is a valid PDF.")).

(** [handleFileSelect], from the result of the direct extraction to the
    value of [rawTextOutput]. *)
Definition rawTextOutput (directText : string) (pages : list PdfPage)
  : M string :=
  if truthy (VStr directText)
     && (MIN_TEXT_LENGTH_FOR_TEXT_PDF <? String.length directText)%nat
  then ret directText
  else
    let! _ := setLoadingStep "PDF has no text, using OCR to scan pages..." in
    let! _ := convertPdfPagesToImageUrisIncremental pages in
    λ st,
      if negb (truthy (VStr (ocrTextFromAllPages st)))
      then throw (mkError "OCR failed to extract any text from the document.") st
      else ret (ocrTextFromAllPages st) st.

End run.

End Page.

(** ** A reference runtime

    The instance of [Js.Runtime] at which the definitions above are run on
    concrete inputs.  It implements the part of the built-ins that ECMAScript
    fixes: the date-only form [YYYY-MM-DD] and the date-time form
    [YYYY-MM-DDTHH:mm:ss] of the date-time string format (the local time
    zone taken to be UTC), and the decimal renderings of a number that is an
    exact decimal fraction.  Any other string is an invalid date. *)

Module Reference.
Import Js.
Local Open Scope Z_scope.

Definition digitValue (c : ascii) : Z := Z.of_N (N_of_ascii c) - 48.

(** The value of a string of decimal digits, [None] if it holds anything
    else or is empty. *)
Fixpoint digits_go (s : string) (acc : Z) : option Z :=
  match s with
  | EmptyString => Some acc
  | String c rest =>
      if isDigit c then digits_go rest (10 * acc + digitValue c) else None
  end.
Definition digits (s : string) : option Z :=
  match s with
  | EmptyString => None
  | _ => digits_go s 0
  end.

Definition isLeapYear (y : Z) : bool :=
  ((y mod 4 =? 0) && negb (y mod 100 =? 0) || (y mod 400 =? 0))%Z.

Definition daysInMonth (y m : Z) : Z :=
  if (m =? 2)%Z then (if isLeapYear y then 29 else 28)
  else if ((m =? 4) || (m =? 6) || (m =? 9) || (m =? 11))%Z then 30
  else 31.

(** Days from 1970-01-01 to the given day of the proleptic Gregorian
    calendar. *)
Definition daysFromCivil (y m d : Z) : Z :=
  let y := if (m <=? 2)%Z then y - 1 else y in
  let era := y / 400 in
  let yoe := y - era * 400 in
  let mp := (m + 9) mod 12 in
  let doy := (153 * mp + 2) / 5 + d - 1 in
  let doe := yoe * 365 + yoe / 4 - yoe / 100 + doy in
  era * 146097 + doe - 719468.

Definition parseDay (s : string) : option Z :=
  if matchesIsoDate s
  then
    match digits (substring 0 4 s), digits (substring 5 2 s),
          digits (substring 8 2 s) with
    | Some y, Some m, Some d =>
        if ((1 <=? m) && (m <=? 12) && (1 <=? d) && (d <=? daysInMonth y m))%Z
        then Some (daysFromCivil y m d * 86400000)
        else None
    | _, _, _ => None
    end
  else None.

(** [HH:mm:ss] to milliseconds. *)
Definition parseTime (s : string) : option Z :=
  if ((String.length s =? 8)%nat
      && String.eqb (substring 2 1 s) ":" && String.eqb (substring 5 1 s) ":")
  then
    match digits (substring 0 2 s), digits (substring 3 2 s),
          digits (substring 6 2 s) with
    | Some h, Some m, Some sec =>
        if ((h <=? 23) && (m <=? 59) && (sec <=? 59))%Z
        then Some (((h * 60 + m) * 60 + sec) * 1000)
        else None
    | _, _, _ => None
    end
  else None.

Definition parseDate (s : string) : option Z :=
  match split "T" s with
  | [day] => parseDay day
  | [day; time] =>
      match parseDay day, parseTime time with
      | Some d, Some t => Some (d + t)
      | _, _ => None
      end
  | _ => None
  end.

(** The fractional digits of [r / den], at most [fuel] of them. *)
Fixpoint fraction (fuel : nat) (r den : Z) : string :=
  match fuel with
  | O => ""
  | S fuel =>
      if (r =? 0)%Z then ""
      else pretty (10 * r / den)%Z +:+ fraction fuel ((10 * r) mod den) den
  end.

(** The decimal expansion, cut after 17 fractional digits. *)
Definition toString (x : Q) : string :=
  let den := Z.pos (Qden x) in
  let n := Z.abs (Qnum x) in
  let whole := pretty (n / den)%Z in
  let frac := fraction 17 (n mod den) den in
  (if (Qnum x <? 0)%Z then "-" else "")
  +:+ whole +:+ (if String.eqb frac "" then "" else "." +:+ frac).

Fixpoint zeros (n : nat) : string :=
  match n with O => "" | S n => "0" +:+ zeros n end.


(** [x.toFixed(d)]: the nearest multiple of [10^-d], ties away from zero. *)
Definition toFixed (x : Q) (d : nat) : string :=
  let den := Z.pos (Qden x) in
  let scale := (10 ^ Z.of_nat d)%Z in
  let n := ((2 * Z.abs (Qnum x) * scale + den) / (2 * den))%Z in
  let frac := pretty (n mod scale)%Z in
  (if (Qnum x <? 0)%Z then "-" else "")
  +:+ pretty (n / scale)%Z
  +:+ (if (d =? 0)%nat then ""
       else "." +:+ zeros (d - String.length frac)%nat +:+ frac).

#[export] Instance runtime : Runtime := {|
  Date_parse := parseDate;
  Number_toString := toString;
  Number_toFixed := toFixed
|}.

End Reference.

(** ** The vocabulary of the properties

    What follows is worded after the specification, to be compared with
    the functions above, together with the concrete documents the properties
    are evaluated on. *)

Import Js.

(** *** Validation *)

(** A field that holds text: present, and not blank once trimmed. *)
Definition present (s : option string) : Prop :=
  ∃ x, s = Some x ∧ trim x ≠ "".

(** A field that is present and not the empty string. *)
Definition nonEmpty (s : option string) : Prop :=
  ∃ x, s = Some x ∧ x ≠ "".

(** Two dates that both parse and lie more than thirty days apart. *)
Definition farApart `{Runtime} (d1 d2 : string) : Prop :=
  ∃ p c, Date_parse d1 = Some p ∧ Date_parse d2 = Some c
         ∧ (30 * 86400000 < Z.abs (c - p))%Z.

(** No two neighbours of the dates, put in ascending order, are far apart. *)
Definition noDateGap `{Runtime} (ts : list PdfUtils.Transaction) : Prop :=
  ∀ l, Sorted String.le l → Some <$> l ≡ₚ PdfUtils.date <$> ts →
       ∀ i d1 d2, l !! i = Some d1 → l !! S i = Some d2 → ¬ farApart d1 d2.

Definition gapPrefix : string := "Potential missing transactions between ".

(** The date-gap issues among the issues of a validation result. *)
Definition dateGapIssuesOf (r : PdfUtils.ValidationResult) : list string :=
  filter (λ s, String.prefix gapPrefix s = true) (PdfUtils.issues r).






Definition entry (day text : string) (out : Q) (bal : Q)
  : PdfUtils.Transaction :=
  {| PdfUtils.date := Some day; PdfUtils.description := Some text;
     PdfUtils.debit := Some out; PdfUtils.credit := None;
     PdfUtils.balance := Some bal |}.

Definition onlyTotalDebits (x : Q) : PdfUtils.Footer :=
  {| PdfUtils.closingBalance := None; PdfUtils.totalDebits := Some x;
     PdfUtils.totalCredits := None; PdfUtils.totalWithdrawals := None;
     PdfUtils.totalDeposits := None; PdfUtils.summary := None |}.

(** *** The formatter *)

(** The matrix the formatter is described to build. *)
Definition layout `{Runtime} (d : PdfUtils.StructuredPdfDataOutput)
  : list (list Val) :=
  (match PdfUtils.header d with
   | Some h => PdfUtils.headerRows h
   | None => []
   end)
  ++ [PdfUtils.transactionHeaders]
  ++ (PdfUtils.dataRow <$> PdfUtils.transactions d)
  ++ (match PdfUtils.footer d with
      | Some f => [] :: PdfUtils.footerRows f
      | None => []
      end).

Definition bankNameOnly : PdfUtils.Header :=
  {| PdfUtils.bankName := Some "ABC";
     PdfUtils.accountNumber := None;
     PdfUtils.accountHolderName := None;
     PdfUtils.statementPeriod := None;
     PdfUtils.statementDate := None;
     PdfUtils.openingBalance := None |}.

(** Header [{bankName: "ABC"}], the transaction [{date: "2024-02-03",
    description: "X", debit: 24.50, balance: 39975.50}], no footer. *)
Definition exampleDocument : PdfUtils.StructuredPdfDataOutput :=
  {| PdfUtils.header := Some bankNameOnly;
     PdfUtils.transactions := [entry "2024-02-03" "X" 24.5 39975.5];
     PdfUtils.footer := None |}.

Definition exampleMatrix : list (list Val) :=
  [[VStr "Bank Name:"; VStr "ABC"]; [];
   [VStr "Date"; VStr "Description"; VStr "Paid Out"; VStr "Paid In";
    VStr "Balance"];
   [VStr "2024-02-03"; VStr "X"; VNum 24.5; VNull; VNum 39975.5]].

(** The same header with four transactions. *)
Definition fourTransactions : PdfUtils.StructuredPdfDataOutput :=
  {| PdfUtils.header := Some bankNameOnly;
     PdfUtils.transactions :=
       [entry "2024-02-03" "Card payment" 24.5 39975.5;
        entry "2024-02-04" "Direct debit" 20 39955.5;
        entry "2024-02-05" "Cash machine" 50 39905.5;
        entry "2024-02-06" "Card payment" 5.5 39900];
     PdfUtils.footer := None |}.

(** *** The export *)

(** A cell value the export accepts. *)
Definition allowedCell (c : Val) : Prop :=
  match c with
  | VNull | VUndefined | VStr _ | VNum _ => True
  | _ => False
  end.

(** A row that is not an array, or holds a cell that is not accepted. *)
Definition invalidRow (row : Val) : Prop :=
  match row with
  | VArr cells => Exists (λ c, ¬ allowedCell c) cells
  | _ => True
  end.

(** Table bounds as the specification words them, for a given notion of
    header row: the header is the first such row; the table ends before the
    first later row whose first cell is empty or a footer label; without a
    header row the first row is the header and the grid is the table. *)
Definition boundsFrom `{Runtime} (header : list Val → Prop)
  `{∀ row, Decision (header row)} (data : list (list Val))
  : ExcelExport.TableBounds :=
  match list_find header data with
  | Some (h, _) =>
      {| ExcelExport.startRow := Z.of_nat h;
         ExcelExport.endRow :=
           match list_find
                   (λ row, ExcelExport.isBoundaryLabel
                             (ExcelExport.firstCell row) = true)
                   (drop (S h) data) with
           | Some (j, _) => Z.of_nat (S h + j) - 1
           | None => Z.of_nat (length data) - 1
           end;
         ExcelExport.headerRow := Z.of_nat h |}
  | None =>
      {| ExcelExport.startRow := 0;
         ExcelExport.endRow := Z.of_nat (length data) - 1;
         ExcelExport.headerRow := 0 |}
  end.

(** The header row is any row whose first cell reads "date". *)
Definition claimedBounds `{Runtime} : list (list Val) → ExcelExport.TableBounds :=
  boundsFrom (λ row, ExcelExport.firstCell row = "date").



(** The cell of a worksheet at a row and a column, if there is one. *)
Definition cellAt (sheet : ExcelExport.Worksheet) (row col : nat)
  : option ExcelExport.Cell :=
  match ExcelExport.cells sheet !! row with
  | Some cells => default None (cells !! col)
  | None => None
  end.


(** The formatter's matrix for one transaction followed by a footer. *)
Definition footedMatrix : list (list Val) :=
  [[VStr "Date"; VStr "Description"; VStr "Paid Out"; VStr "Paid In";
    VStr "Balance"];
   [VStr "2024-02-03"; VStr "X"; VNum 24.5; VNull; VNum 39975.5];
   [];
   [VStr "Closing Balance:"; VNum 39975.5]].

(** *** The structuring flow *)

(** A string that is not blank once trimmed. *)
Definition isTextValue (x : Val) : Prop :=
  match x with
  | VStr s => trim s ≠ ""
  | _ => False
  end.

#[export] Instance isTextValue_dec x : Decision (isTextValue x).
Proof. destruct x; simpl; apply _. Defined.


(** *** The OCR fallback *)

(** A page that renders, and whose recognition returns or fails with an
    error that is neither a cancellation nor an abort. *)
Definition tolerable (p : Page.PdfPage) : Prop :=
  (∃ uri, Page.render p = returned uri)
  ∧ match Page.recognise p with
    | thrown e => cancelled e = false ∧ name e ≠ "AbortError"
    | returned _ => True
    end.



(** What a page contributes to the text: its recognised text and a blank
    line, nothing when recognition failed or found nothing. *)
Definition pageText (p : Page.PdfPage) : string :=
  match Page.recognise p with
  | returned (Some s) =>
      if decide (s = "") then "" else s +:+ Page.newline +:+ Page.newline
  | _ => ""
  end.

Definition recognisedText (pages : list Page.PdfPage) : string :=
  foldr (λ p acc, pageText p +:+ acc) "" pages.

(** The two console lines written for a page whose recognition failed. *)
Definition failureLog (pageNum : nat) (p : Page.PdfPage) : list Console :=
  match Page.recognise p with
  | thrown e =>
      [Js.error ("Error processing page " +:+ pretty pageNum +:+ ":")
         [message e];
       warn ("Page " +:+ pretty pageNum
             +:+ " OCR failed, continuing with other pages...") []]
  | returned _ => []
  end.

Fixpoint failureLogs (pageNum : nat) (pages : list Page.PdfPage)
  : list Console :=
  match pages with
  | [] => []
  | p :: rest => failureLog pageNum p ++ failureLogs (S pageNum) rest
  end.

Fixpoint scanSteps (pageNum totalPages : nat) (pages : list Page.PdfPage)
  : list string :=
  match pages with
  | [] => []
  | _ :: rest =>
      ("Scanning page " +:+ pretty pageNum +:+ " of " +:+ pretty totalPages
       +:+ "...")
      :: scanSteps (S pageNum) totalPages rest
  end.

Definition ocrFailed : Error :=
  mkError "OCR failed to extract any text from the document.".

Definition scanned (text : string) : Page.PdfPage :=
  {| Page.render := returned "data:image/jpeg;base64,";
     Page.recognise := returned (Some text) |}.

Definition unreadable (reason : string) : Page.PdfPage :=
  {| Page.render := returned "data:image/jpeg;base64,";
     Page.recognise := thrown (mkError reason) |}.

Definition fivePages : list Page.PdfPage :=
  [scanned "one"; scanned "two"; unreadable "recognition timed out";
   scanned "four"; scanned "five"].

(** A text of exactly one hundred characters. *)
Definition hundredChars : string :=
  "0123456789012345678901234567890123456789012345678901234567890123456789012345678901234567890123456789".

(** ** Further vocabulary *)

(** *** The export *)

(** A row the export accepts: an array of accepted cells. *)
Definition validRow (row : Val) : Prop :=
  match row with
  | VArr cells => Forall allowedCell cells
  | _ => False
  end.

(** The entry of a matrix at a row and a column; [VUndefined] outside. *)
Definition entryAt (data : list Val) (row col : nat) : Val :=
  match data !! row with
  | Some r => index (ExcelExport.rowCells r) col
  | None => VUndefined
  end.

(** A value other than null and undefined. *)
Definition holdsValue (x : Val) : bool :=
  match x with VUndefined | VNull => false | _ => true end.

(** The number of rows that hold a value in a column. *)
Definition populated (data : list Val) (col : nat) : nat :=
  length (filter (λ row, holdsValue (index (ExcelExport.rowCells row) col) = true)
            data).

(** The fixed minimum width of a column: the five transaction columns. *)
Definition fixedMinimum (col : nat) : nat :=
  match col with
  | 0 => 12 | 1 => 40 | 2 => 15 | 3 => 15 | 4 => 18 | _ => 10
  end%nat.

(** *** The formatter *)

(** The number of rows of the header block: the rows of the header and the
    blank row after them, none without a header. *)
Definition headerBlock `{Runtime} (d : PdfUtils.StructuredPdfDataOutput) : nat :=
  match PdfUtils.header d with
  | Some h => length (PdfUtils.headerRows h)
  | None => 0
  end.

(** A row the first loop of [findTransactionTableBounds] passes over for its
    length. *)
Definition shortRow (row : list Val) : Prop := (length row < 5)%nat.

(** A row the second loop of [findTransactionTableBounds] passes over. *)
Definition passedRow `{Runtime} (row : list Val) : Prop :=
  row = [] ∨ ExcelExport.isBoundaryLabel (ExcelExport.firstCell row) = false.

(** *** Validation and the structuring flow *)

(** The issue reported for the [n]-th transaction, counted from one, when
    the field [what] is missing. *)
Definition missingIssue (n : nat) (what : string) : string :=
  "Transaction " +:+ pretty n +:+ ": Missing " +:+ what.


(** *** The OCR fallback *)

(** The error [convertPdfPagesToImageUrisIncremental] raises for a
    cancellation. *)
Definition conversionCancelled : Error :=
  ProcessingCancelledError "PDF to image conversion was cancelled".

Definition conversionNetworkError : Error :=
  NetworkError
    "Network error while converting PDF pages to images. Please check your connection and try again.".

Definition conversionFailed : Error :=
  mkError
    "Failed to convert PDF pages to images. Please ensure the file is a valid PDF.".

(** ** env: validated access to the environment variables *)

Module Env.
Import Js.

(** [process.env] *)
Definition ProcessEnv := gmap string string.

(** What [JSON.parse] gives, as far as the validation looks at it: an
    object with its [project_id], [private_key] and [client_email]
    properties ([VUndefined] when absent), or anything else. *)
Inductive Json :=
| JsonObject (project_id private_key client_email : Val)
| JsonOther.

Record Env := {
  GEMINI_API_KEY : string;
  PAYPAL_CLIENT_ID : string;
  PAYPAL_CLIENT_SECRET : string;
  FIREBASE_SERVICE_ACCOUNT : option Json;
  NEXT_PUBLIC_EMAILJS_SERVICE_ID : option string;
  NEXT_PUBLIC_EMAILJS_TEMPLATE_ID : option string;
  NEXT_PUBLIC_EMAILJS_PUBLIC_KEY : option string;
  NODE_ENV : string
}.

(** The result of [getEnvSafe]: the required variables are optional. *)
Record PartialEnv := {
  safe_GEMINI_API_KEY : option string;
  safe_PAYPAL_CLIENT_ID : option string;
  safe_PAYPAL_CLIENT_SECRET : option string;
  safe_FIREBASE_SERVICE_ACCOUNT : option Json;
  safe_NEXT_PUBLIC_EMAILJS_SERVICE_ID : option string;
  safe_NEXT_PUBLIC_EMAILJS_TEMPLATE_ID : option string;
  safe_NEXT_PUBLIC_EMAILJS_PUBLIC_KEY : option string;
  safe_NODE_ENV : string
}.

Record EmailJSConfig := {
  serviceId : string;
  templateId : string;
  publicKey : string
}.

(** [!!value] for a variable that may be unset. *)
Definition set (value : option string) : bool :=
  match value with
  | Some v => truthy (VStr v)
  | None => false
  end.

Section with_parser.
Variable JSON_parse : string → Outcome Json.
Variable env : ProcessEnv.

Definition parseFirebaseServiceAccount (value : option string)
  : Outcome (option Json) :=
  if negb (set value) then returned None
  else
    match
      match JSON_parse (default "" value) with
      | returned parsed =>
          match parsed with
          | JsonObject project_id private_key client_email =>
              if isString project_id && isString private_key
                 && isString client_email
              then returned (Some parsed)
              else thrown (mkError "Invalid Firebase service account structure")
          | JsonOther =>
              thrown (mkError "Invalid Firebase service account structure")
          end
      | thrown e => thrown e
      end
    with
    | returned account => returned account
    | thrown e =>
        thrown (mkError ("Failed to parse FIREBASE_SERVICE_ACCOUNT: "
                         +:+ message e))
    end.

Definition getRequiredEnv (key : string) : Outcome string :=
  let value := env !! key in
  if negb (set value)
  then thrown (mkError ("Required environment variable " +:+ key
                        +:+ " is not set"))
  else returned (default "" value).

Definition getOptionalEnv (key : string) : option string := env !! key.

(** [getOptionalEnv('NODE_ENV') || 'development'] *)
Definition nodeEnv : string :=
  if set (getOptionalEnv "NODE_ENV")
  then default "" (getOptionalEnv "NODE_ENV")
  else "development".

(** The properties of the object literal are evaluated in order; the
    first call that throws ends the evaluation. *)
Definition getEnv : Outcome Env :=
  match getRequiredEnv "GEMINI_API_KEY" with
  | thrown e => thrown e
  | returned gemini =>
  match getRequiredEnv "PAYPAL_CLIENT_ID" with
  | thrown e => thrown e
  | returned clientId =>
  match getRequiredEnv "PAYPAL_CLIENT_SECRET" with
  | thrown e => thrown e
  | returned clientSecret =>
  match parseFirebaseServiceAccount
          (getOptionalEnv "FIREBASE_SERVICE_ACCOUNT") with
  | thrown e => thrown e
  | returned account =>
      returned
        {| GEMINI_API_KEY := gemini;
           PAYPAL_CLIENT_ID := clientId;
           PAYPAL_CLIENT_SECRET := clientSecret;
           FIREBASE_SERVICE_ACCOUNT := account;
           NEXT_PUBLIC_EMAILJS_SERVICE_ID :=
             getOptionalEnv "NEXT_PUBLIC_EMAILJS_SERVICE_ID";
           NEXT_PUBLIC_EMAILJS_TEMPLATE_ID :=
             getOptionalEnv "NEXT_PUBLIC_EMAILJS_TEMPLATE_ID";
           NEXT_PUBLIC_EMAILJS_PUBLIC_KEY :=
             getOptionalEnv "NEXT_PUBLIC_EMAILJS_PUBLIC_KEY";
           NODE_ENV := nodeEnv |}
  end end end end.

Definition getEnvSafe : Outcome PartialEnv :=
  let nodeEnv := nodeEnv in
  match parseFirebaseServiceAccount
          (getOptionalEnv "FIREBASE_SERVICE_ACCOUNT") with
  | thrown e => thrown e
  | returned account =>
      returned
        {| safe_GEMINI_API_KEY := getOptionalEnv "GEMINI_API_KEY";
           safe_PAYPAL_CLIENT_ID := getOptionalEnv "PAYPAL_CLIENT_ID";
           safe_PAYPAL_CLIENT_SECRET := getOptionalEnv "PAYPAL_CLIENT_SECRET";
           safe_FIREBASE_SERVICE_ACCOUNT := account;
           safe_NEXT_PUBLIC_EMAILJS_SERVICE_ID :=
             getOptionalEnv "NEXT_PUBLIC_EMAILJS_SERVICE_ID";
           safe_NEXT_PUBLIC_EMAILJS_TEMPLATE_ID :=
             getOptionalEnv "NEXT_PUBLIC_EMAILJS_TEMPLATE_ID";
           safe_NEXT_PUBLIC_EMAILJS_PUBLIC_KEY :=
             getOptionalEnv "NEXT_PUBLIC_EMAILJS_PUBLIC_KEY";
           safe_NODE_ENV := nodeEnv |}
  end.

Definition hasEmailJSConfig : bool :=
  set (env !! "NEXT_PUBLIC_EMAILJS_SERVICE_ID")
  && set (env !! "NEXT_PUBLIC_EMAILJS_TEMPLATE_ID")
  && set (env !! "NEXT_PUBLIC_EMAILJS_PUBLIC_KEY").

Definition getEmailJSConfig : option EmailJSConfig :=
  let serviceId := env !! "NEXT_PUBLIC_EMAILJS_SERVICE_ID" in
  let templateId := env !! "NEXT_PUBLIC_EMAILJS_TEMPLATE_ID" in
  let publicKey := env !! "NEXT_PUBLIC_EMAILJS_PUBLIC_KEY" in
  if set serviceId && set templateId && set publicKey
  then Some {| serviceId := default "" serviceId;
               templateId := default "" templateId;
               publicKey := default "" publicKey |}
  else None.

End with_parser.

End Env.

(** The variables [getEnv] requires, in the order it reads them. *)
Definition requiredVariables : list string :=
  ["GEMINI_API_KEY"; "PAYPAL_CLIENT_ID"; "PAYPAL_CLIENT_SECRET"].

(** A variable set to a non-empty value. *)
Definition configured (env : Env.ProcessEnv) (key : string) : Prop :=
  ∃ value, env !! key = Some value ∧ value ≠ "".

(** ** pdf-utils: the deprecated text-to-table parser *)

Module TextTable.
Import Js.

(** [s.split(re)] for a pattern [re] that matches a run of at least [min]
    characters of the class [sep], [min] being positive: [cell] is the
    piece being read and [run] the separators met since its last
    character. *)
Fixpoint splitRuns_go (sep : ascii → bool) (min : nat) (cell run s : string)
  : list string :=
  match s with
  | EmptyString =>
      if (min <=? String.length run)%nat then [cell; ""] else [cell +:+ run]
  | String c rest =>
      if sep c then splitRuns_go sep min cell (run +:+ String c "") rest
      else if (min <=? String.length run)%nat
           then cell :: splitRuns_go sep min (String c "") "" rest
           else splitRuns_go sep min (cell +:+ run +:+ String c "") "" rest
  end.

Definition splitRuns (sep : ascii → bool) (min : nat) (s : string)
  : list string :=
  splitRuns_go sep min "" "" s.

Definition tab : ascii := ascii_of_nat 9.
Definition lineFeed : ascii := ascii_of_nat 10.

(** [line.replace(/\t/g, '    ')] *)
Fixpoint replaceTabs (line : string) : string :=
  match line with
  | EmptyString => EmptyString
  | String c rest =>
      if Ascii.eqb c tab then "    " +:+ replaceTabs rest
      else String c (replaceTabs rest)
  end.

(** [pieces.map(cell => cell.trim()).filter(cell => cell !== '')] *)
Definition cellsOf (pieces : list string) : list string :=
  filter (λ cell, cell ≠ "") (trim <$> pieces).

(** A loop over the lines that pushes the cells of each line that has
    some. *)
Definition rowsOf (cells : string → list string) (lines : list string)
  : list (list string) :=
  filter (λ row, (0 < length row)%nat) (cells <$> lines).

Definition everySingle (table : list (list string)) : bool :=
  forallb (λ row, (length row =? 1)%nat) table.

Definition parseTextToTableData (text : string)
  : list Console * list (list string) :=
  ([warn "parseTextToTableData is deprecated. Use AI-driven structuring." []],
   if negb (truthy (VStr text)) then []
   else
     let lines := filter (λ line, trim line ≠ "") (split lineFeed text) in
     let table :=
       rowsOf (λ line,
                 let normalizedLine := replaceTabs line in
                 cellsOf (splitRuns (λ c, Ascii.eqb c " ") 2 normalizedLine))
         lines in
     let reprocessedTable :=
       rowsOf (λ line, cellsOf (splitRuns isWhiteSpace 1 line)) lines in
     if everySingle table && (1 <? length table)%nat
        && ((0 <? length reprocessedTable)%nat
            && negb (everySingle reprocessedTable))
     then reprocessedTable
     else if (0 <? length table)%nat then table else [[text]]).

End TextTable.

(** A table without an empty row or an empty cell. *)
Definition filled (table : list (list string)) : Prop :=
  Forall (λ row, row ≠ [] ∧ Forall (λ cell, cell ≠ "") row) table.

(** The lines of a text that are not blank. *)
Definition textLines (text : string) : list string :=
  filter (λ line, trim line ≠ "") (split TextTable.lineFeed text).

(** The table read by columns, a column ending at two spaces or a tab. *)
Definition columnsTable (text : string) : list (list string) :=
  TextTable.rowsOf
    (λ line, TextTable.cellsOf
               (TextTable.splitRuns (λ c, Ascii.eqb c " ") 2
                  (TextTable.replaceTabs line)))
    (textLines text).

(** The table read word by word. *)
Definition wordsTable (text : string) : list (list string) :=
  TextTable.rowsOf
    (λ line, TextTable.cellsOf (TextTable.splitRuns isWhiteSpace 1 line))
    (textLines text).

(** A string free of the characters of a class. *)
Fixpoint free (class : ascii → bool) (s : string) : bool :=
  match s with
  | EmptyString => true
  | String c rest => negb (class c) && free class rest
  end.

(** ** pdf-utils: direct text extraction *)

Module PdfText.
Import Js Page.

(** A page as the extraction meets it: what [pdf.getPage] throws, if it
    throws, and what [page.getTextContent] gives, each item by its [str]
    property ([None] for an item without a string [str]). *)
Record TextPage := {
  getPage : option Error;
  getTextContent : Outcome (list (option string))
}.

(** The document once opened: its pages, and what [pdf.destroy] throws, if
    it throws. *)
Record Document := {
  pages : list TextPage;
  destroy : option Error
}.

(** [strs.join(' ')] *)
Fixpoint join (strs : list string) : string :=
  match strs with
  | [] => ""
  | [s] => s
  | s :: rest => s +:+ " " +:+ join rest
  end.

Definition pageText (items : list (option string)) : string :=
  join (default "" <$> items).

Section run.
Variable abortAfter : option nat.

(** The page loop. *)
Fixpoint readPages (pages : list TextPage) (fullText : string) : M string :=
  match pages with
  | [] => ret fullText
  | page :: rest =>
      let! cancelledNow := aborted abortAfter in
      if cancelledNow : bool
      then throw (mkError "PDF text extraction was cancelled")
      else
        let! _ := await (match getPage page with
                         | Some e => thrown e
                         | None => returned tt
                         end) in
        let! textContent := await (getTextContent page) in
        readPages rest (fullText +:+ pageText textContent
                        +:+ newline +:+ newline)
  end.

(** [document] is what [getDocument(...).promise] gives. *)
Definition extractTextFromPdf (document : Outcome Document) : M string :=
  λ st,
    let '(st, result) :=
      tryCatch
        (let! pdf := await document in
         let! fullText := readPages (pages pdf) "" in
         ret (trim fullText))
        (λ e,
           let! cancelledNow := aborted abortAfter in
           if cancelledNow || includes (message e) "cancelled"
           then throw (ProcessingCancelledError
                         "PDF text extraction was cancelled")
           else
             let! _ := logError e in
             if includes (message e) "network"
                || includes (message e) "fetch"
             then throw (NetworkError
                           "Network error while extracting text from PDF. Please check your connection and try again.")
             else throw (mkError
                           "Failed to extract text from PDF. Please ensure the file is a valid PDF."))
        st in
    (* finally *)
    match document with
    | returned pdf =>
        match destroy pdf with
        | Some cleanupError =>
            (fst (log (warn "Error cleaning up PDF document:"
                         [message cleanupError]) st), result)
        | None => (st, result)
        end
    | thrown _ => (st, result)
    end.

End run.

End PdfText.

(** A page whose text can be read. *)
Definition readable (page : PdfText.TextPage) : Prop :=
  PdfText.getPage page = None
  ∧ ∃ items, PdfText.getTextContent page = returned items.

(** The items of a page, none when its text cannot be read. *)
Definition itemsOf (page : PdfText.TextPage) : list (option string) :=
  match PdfText.getTextContent page with
  | returned items => items
  | thrown _ => []
  end.

(** The text of the pages before trimming. *)
Definition fullTextOf (pages : list PdfText.TextPage) : string :=
  foldr (λ page rest, PdfText.pageText (itemsOf page) +:+ Page.newline
                      +:+ Page.newline +:+ rest) "" pages.

(** A page without text: its items have no characters but white space. *)
Definition textless (page : PdfText.TextPage) : Prop :=
  Forall (λ item, free (λ c, negb (isWhiteSpace c)) (default "" item) = true)
    (itemsOf page).

(** ** page.tsx: the handler of a selected file *)

Module FileSelect.
Import Js Page.




Section with_runtime.
Context `{Runtime}.
Variable abortAfter : option nat.



End with_runtime.

End FileSelect.

(** ** page.tsx: the download handler *)

Module Download.
Import Js.

Definition MAX_FILE_COUNT : nat := 12.
Definition TWENTY_FOUR_HOURS_MS : Z := 24 * 60 * 60 * 1000.

(** An entry of the download history kept in local storage. *)
Record StoredExcelFile := {
  name : string;
  data : list Val;
  timestamp : Z
}.

(** The class [[^/.]] of the pattern. *)
Definition extensionChar (c : ascii) : bool :=
  negb (Ascii.eqb c "/") && negb (Ascii.eqb c ".").

Fixpoint extensionChars (s : string) : bool :=
  match s with
  | EmptyString => true
  | String c rest => extensionChar c && extensionChars rest
  end.

(** [name.replace(/\.[^/.]+$/, "")]: the leftmost match, a dot followed to
    the end of the name by one or more characters of the class, is
    removed. *)
Fixpoint stripExtension (s : string) : string :=
  match s with
  | EmptyString => EmptyString
  | String c rest =>
      if Ascii.eqb c "." && negb (String.eqb rest "") && extensionChars rest
      then EmptyString
      else String c (stripExtension rest)
  end.

Definition originalFileName (selectedFileName : string) : string :=
  stripExtension selectedFileName +:+ ".xlsx".

(** The list written back: entries of the last twenty-four hours, the new
    file put first, cut to [MAX_FILE_COUNT]. *)
Definition updatedFiles (now : Z) (newFile : StoredExcelFile)
  (files : list StoredExcelFile) : list StoredExcelFile :=
  let files :=
    filter (λ file, (now - timestamp file < TWENTY_FOUR_HOURS_MS)%Z) files in
  let files := newFile :: files in
  if (MAX_FILE_COUNT <? length files)%nat then take MAX_FILE_COUNT files
  else files.


Section with_runtime.
Context `{Runtime}.


End with_runtime.

End Download.

(** A file name free of dots and slashes. *)
Definition plainName (s : string) : Prop := Download.extensionChars s = true.

(** An entry of the history younger than twenty-four hours at [now]. *)
Definition recent (now : Z) (file : Download.StoredExcelFile) : Prop :=
  (now - Download.timestamp file < Download.TWENTY_FOUR_HOURS_MS)%Z.

#[export] Instance recent_dec now file : Decision (recent now file).
Proof. unfold recent. apply _. Defined.

(** ** DataPreview: the table shown before the download *)

Module DataPreview.
Import Js.

Definition PREVIEW_ROW_LIMIT : nat := 100.

(** [data.slice(0, PREVIEW_ROW_LIMIT)], [None] for [null]. *)
Definition displayData (data : option (list (list Val)))
  : option (list (list Val)) :=
  match data with
  | None => None
  | Some rows =>
      if (length rows =? 0)%nat then None
      else Some (take PREVIEW_ROW_LIMIT rows)
  end.

(** [Math.max(0, ...displayData.map(row => row.length))] *)
Definition maxColumns (displayData : option (list (list Val))) : nat :=
  match displayData with
  | None => 0
  | Some rows => foldr Nat.max 0 (length <$> rows)
  end.

Definition hasMoreRows (data : option (list (list Val))) : bool :=
  match data with
  | Some rows => (PREVIEW_ROW_LIMIT <? length rows)%nat
  | None => false
  end.

(** The table rendered: its caption, the column headings and the text of
    the cells, row by row. *)
Record Table := {
  caption : string;
  headings : list string;
  body : list (list string)
}.

Section with_runtime.
Context `{Runtime}.

Definition formatCellValue (value : Val) : string :=
  match value with
  | VNull | VUndefined => ""
  | VNum q => Number_toFixed q 2
  | _ => ToString value
  end.

(** The component; [None] is the paragraph "No data to display.". *)
Definition DataPreview (data : option (list (list Val))) : option Table :=
  let displayData := displayData data in
  let maxColumns := maxColumns displayData in
  match displayData with
  | None => None
  | Some rows =>
      if (length rows =? 0)%nat then None
      else
        Some
          {| caption :=
               "Preview of extracted data. Scroll horizontally if needed."
               +:+ (if hasMoreRows data
                    then " (Showing first " +:+ pretty PREVIEW_ROW_LIMIT
                         +:+ " of "
                         +:+ pretty (length (default [] data)) +:+ " rows)"
                    else "");
             headings :=
               (λ colIndex, "Column " +:+ pretty (colIndex + 1)%nat)
                 <$> seq 0 maxColumns;
             body :=
               (λ row, (λ cellIndex, formatCellValue (index row cellIndex))
                         <$> seq 0 maxColumns)
                 <$> rows |}
  end.

End with_runtime.

End DataPreview.

(** ** types/errors: error classes, type guards and classification *)

Module Errors.
Import Js.

(** A thrown value.  An error object is as its constructor builds it;
    [OtherError] is any other [Error] instance, with its [code] when that
    is a string; [PlainObject] is an object that is not an [Error], with
    its [message] and [code] properties when it has them. *)
Inductive Thrown :=
| ValidationError (message : string) (field : option string) (value : Val)
| EnvError (message : string) (variable : option string)
| NetworkError (message : string) (statusCode : option Q)
    (url : option string)
| PermissionError (message : string) (resource action : option string)
| NotFoundError (message : string) (resource id : option string)
| ProcessingCancelledError (message : string)
| OtherError (name message : string) (code : option string)
| PlainObject (message code : option Val)
| Primitive (v : Val).

(** [error instanceof Error] *)
Definition isError (error : Thrown) : bool :=
  match error with
  | PlainObject _ _ | Primitive _ => false
  | _ => true
  end.

(** [error.message] of an [Error] instance. *)
Definition message (error : Thrown) : string :=
  match error with
  | ValidationError m _ _ | EnvError m _ | NetworkError m _ _
  | PermissionError m _ _ | NotFoundError m _ _
  | ProcessingCancelledError m | OtherError _ m _ => m
  | _ => ""
  end.

(** [error.code] of an [Error] instance when it is a string. *)
Definition code (error : Thrown) : option string :=
  match error with
  | PermissionError _ _ _ => Some "PERMISSION_DENIED"
  | NotFoundError _ _ _ => Some "NOT_FOUND"
  | OtherError _ _ c => c
  | _ => None
  end.

(** [s.startsWith(p)] *)
Definition startsWith (s p : string) : bool := String.prefix p s.

Definition isProcessingCancelledError (error : Thrown) : bool :=
  match error with ProcessingCancelledError _ => true | _ => false end.

Definition isFirebaseAuthError (error : Thrown) : bool :=
  isError error
  && match code error with
     | Some c => startsWith c "auth/"
     | None => false
     end.

Definition isFirebaseSDKError (error : Thrown) : bool :=
  isError error
  && match code error with
     | Some c =>
         startsWith c "storage/" || startsWith c "firestore/"
         || startsWith c "functions/"
     | None => false
     end.

Definition isCodedError (error : Thrown) : bool :=
  isError error && bool_decide (is_Some (code error)).

Definition isValidationError (error : Thrown) : bool :=
  match error with ValidationError _ _ _ => true | _ => false end.

Definition isEnvError (error : Thrown) : bool :=
  match error with EnvError _ _ => true | _ => false end.

Definition isNetworkError (error : Thrown) : bool :=
  match error with NetworkError _ _ _ => true | _ => false end.

Definition isPermissionError (error : Thrown) : bool :=
  match error with PermissionError _ _ _ => true | _ => false end.

Definition isNotFoundError (error : Thrown) : bool :=
  match error with NotFoundError _ _ _ => true | _ => false end.

Definition getErrorMessage (error : Thrown) : string :=
  if isError error then message error
  else
    match error with
    | PlainObject (Some (VStr m)) _ => m
    | Primitive (VStr s) => s
    | _ => "An unknown error occurred"
    end.

Definition getErrorCode (error : Thrown) : option string :=
  if isCodedError error then code error
  else
    match error with
    | PlainObject _ (Some (VStr c)) => Some c
    | _ => None
    end.

(** [error.statusCode] of a [NetworkError]. *)
Definition statusCode (error : Thrown) : option Q :=
  match error with
  | NetworkError _ s _ => s
  | _ => None
  end.

Definition getUserFriendlyErrorMessage (error : Thrown) : string :=
  if isFirebaseAuthError error then
    let c := default "" (code error) in
    if String.eqb c "auth/user-not-found" || String.eqb c "auth/wrong-password"
       || String.eqb c "auth/invalid-credential"
    then "Invalid email or password."
    else if String.eqb c "auth/email-already-in-use"
    then "This email is already registered."
    else if String.eqb c "auth/too-many-requests"
    then "Too many attempts. Please try again later."
    else if String.eqb c "auth/weak-password"
    then "Password is too weak. Please choose a stronger password."
    else if String.eqb c "auth/invalid-email"
    then "Invalid email address."
    else if String.eqb c "auth/network-request-failed"
    then "Network error. Please check your connection and try again."
    else "Authentication error: " +:+ message error
  else if isFirebaseSDKError error then
    let c := default "" (code error) in
    if String.eqb c "storage/object-not-found" then "File not found."
    else if String.eqb c "storage/unauthorized"
    then "You do not have permission to access this file."
    else if String.eqb c "storage/quota-exceeded"
    then "Storage quota exceeded."
    else "Firebase error: " +:+ message error
  else if isValidationError error then message error
  else if isEnvError error then "Configuration error: " +:+ message error
  else if isNetworkError error then
    match statusCode error with
    | Some s =>
        if Qeq_bool s 404 then "The requested resource was not found."
        else if Qeq_bool s 403 || Qeq_bool s 401
        then "You do not have permission to access this resource."
        else if truthy (VNum s) && Qle_bool 500 s
        then "Server error. Please try again later."
        else "Network error: " +:+ message error
    | None => "Network error: " +:+ message error
    end
  else if isPermissionError error then
    if truthy (VStr (message error)) then message error
    else "You do not have permission to perform this action."
  else if isNotFoundError error then
    if truthy (VStr (message error)) then message error
    else "The requested resource was not found."
  else getErrorMessage error.

Definition getErrorStatusCode (error : Thrown) : Q :=
  let c := default "" (code error) in
  if isNetworkError error
     && match statusCode error with
        | Some s => truthy (VNum s)
        | None => false
        end
  then default 0%Q (statusCode error)
  else if isFirebaseAuthError error then
    if String.eqb c "auth/network-request-failed" then 503 else 401
  else if isFirebaseSDKError error then
    if String.eqb c "storage/unauthorized"
       || String.eqb c "firestore/permission-denied"
    then 403
    else if String.eqb c "storage/object-not-found"
            || String.eqb c "firestore/not-found"
    then 404
    else if String.eqb c "storage/quota-exceeded" then 507
    else 500
  else if isPermissionError error then 403
  else if isNotFoundError error then 404
  else if isValidationError error then 400
  else if isEnvError error then 500
  else 500.

Definition isRetryableError (error : Thrown) : bool :=
  if isNetworkError error then
    match statusCode error with
    | Some s =>
        negb (truthy (VNum s)) || Qle_bool 500 s || Qeq_bool s 408
    | None => true
    end
  else if isFirebaseAuthError error then
    String.eqb (default "" (code error)) "auth/network-request-failed"
  else if isFirebaseSDKError error then
    includes (default "" (code error)) "network"
    || includes (default "" (code error)) "unavailable"
  else if isValidationError error || isPermissionError error
          || isNotFoundError error
  then false
  else false.

End Errors.
(** ** error-handler: retrying an asynchronous call *)

Module ErrorHandler.
Import Js Errors.

(** What a call of the wrapped function gives. *)
Inductive Result (T : Type) :=
| Returned (value : T)
| Threw (raised : Thrown).
Arguments Returned {T} value.
Arguments Threw {T} raised.

(** What [handleAsyncError] does besides returning: it calls [fn], waits
    on a timer, and reports the final error, to [onError] when there is
    one and to [logError] otherwise, with the number of the attempt. *)
Inductive Event :=
| called
| waited (ms : nat)
| reported (raised : Thrown) (attempt : nat).

(** The [while] loop, from the value [attempt] of the counter, with
    [remaining] iterations before the condition [attempt <= retries]
    fails; [fn k] is what the call number [k] gives, counted from zero. *)
Fixpoint attempts {T} (fn : nat → Result T) (retries retryDelay : nat)
  (lastError : Thrown) (remaining attempt : nat)
  : list Event * Result T :=
  match remaining with
  | 0 => ([], Threw lastError)
  | S remaining =>
      match fn attempt with
      | Returned value => ([called], Returned value)
      | Threw raised =>
          let attempt := S attempt in
          if negb (isRetryableError raised) || (retries <? attempt)%nat
          then ([called; reported raised attempt], Threw raised)
          else
            let '(events, result) :=
              attempts fn retries retryDelay raised remaining attempt in
            (called
             :: (if (attempt <=? retries)%nat
                 then [waited (retryDelay * attempt)]
                 else [])
             ++ events, result)
      end
  end.

(** [retries] and [retryDelay] are the options once defaulted (0 and
    1000). *)
Definition handleAsyncError {T} (fn : nat → Result T)
  (retries retryDelay : nat) : list Event * Result T :=
  attempts fn retries retryDelay (Primitive VUndefined) (S retries) 0.

End ErrorHandler.

(** The statuses [getErrorStatusCode] gives of its own. *)
Definition ownStatuses : list Q := [400; 401; 403; 404; 500; 503; 507]%Q.

(** The calls and waits that precede call number [k] of a retried
    function. *)
Definition retried (retryDelay k : nat) : list ErrorHandler.Event :=
  flat_map (λ j, [ErrorHandler.called;
                  ErrorHandler.waited (retryDelay * S j)]) (seq 0 k).

(** * Properties *)

(** ** Strings, sorting and numbers *)

Lemma app_cons c s t : String c s +:+ t = String c (s +:+ t).
Proof. reflexivity. Qed.

Lemma str_app_nil_r s : s +:+ "" = s.
Proof. induction s as [|c s IH]; [done|]. by rewrite app_cons, IH. Qed.

Lemma str_app_assoc a b c : (a +:+ b) +:+ c = a +:+ (b +:+ c).
Proof. induction a as [|x a IH]; [done|]. by rewrite !app_cons, IH. Qed.

Lemma prefix_app p s : String.prefix p (p +:+ s) = true.
Proof.
  induction p as [|c p IH]; [by destruct s|].
  rewrite app_cons. simpl. destruct (ascii_dec c c); [done|congruence].
Qed.

Lemma eqb_false_iff s t : String.eqb s t = false ↔ s ≠ t.
Proof. destruct (String.eqb_spec s t); split; congruence. Qed.


Lemma sort_sorted l : Sorted String.le (Js.sort l).
Proof. apply Sorted_merge_sort; apply _. Qed.

Lemma sort_perm l : Js.sort l ≡ₚ l.
Proof. apply merge_sort_Permutation. Qed.

(** The ascending arrangement of a list of strings is unique. *)
Lemma sort_unique l l' : Sorted String.le l → l ≡ₚ l' → l = Js.sort l'.
Proof.
  intros Hs Hp. apply (Sorted_unique String.le); [done|apply sort_sorted|].
  by rewrite sort_perm.
Qed.

Lemma sort_Permutation l1 l2 : l1 ≡ₚ l2 → Js.sort l1 = Js.sort l2.
Proof.
  intros Hp. apply sort_unique; [apply sort_sorted|]. by rewrite sort_perm.
Qed.

Lemma omap_id_Some {A} (l : list A) : omap id (Some <$> l) = l.
Proof. induction l; simpl; by f_equal. Qed.

Lemma Some_Permutation {A} (l1 l2 : list A) :
  Some <$> l1 ≡ₚ Some <$> l2 → l1 ≡ₚ l2.
Proof.
  intros Hp. rewrite <-(omap_id_Some l1), <-(omap_id_Some l2). by rewrite Hp.
Qed.

Lemma gt_spec x y : gt x y = true ↔ (y < x)%Q.
Proof.
  unfold gt. rewrite negb_true_iff. split.
  - intros Hle. apply Qnot_le_lt. intros Hc. apply Qle_bool_iff in Hc.
    congruence.
  - intros Hlt. destruct (Qle_bool x y) eqn:E; [|done].
    apply Qle_bool_iff in E. by apply Qlt_not_le in Hlt.
Qed.

(** The day difference of two time values exceeds thirty exactly when the
    time values are more than thirty days of milliseconds apart. *)
Lemma days_apart p c :
  (30 < Qabs ((inject_Z c - inject_Z p) / (1000 * 60 * 60 * 24)))%Q
  ↔ (30 * 86400000 < Z.abs (c - p))%Z.
Proof.
  change (1000 * 60 * 60 * 24)%Q with (86400000 # 1)%Q.
  unfold Qlt, Qabs, Qdiv, Qminus, Qplus, Qopp, Qmult, Qinv, inject_Z.
  cbn -[Z.mul Z.add Z.abs Z.opp Z.lt].
  replace ((c * 1 + - p * 1) * 1)%Z with (c - p)%Z by lia. lia.
Qed.




Lemma blank_false s : PdfUtils.blank s = false ↔ present s.
Proof.
  destruct s as [s|]; simpl.
  - rewrite orb_false_iff, !eqb_false_iff. split.
    + intros [_ Ht]. by exists s.
    + intros (x & [= <-] & Ht). split; [|done]. by intros ->.
  - split; [done|]. by intros (x & ? & _).
Qed.

(** ** The validation engine *)

Section validation.
Context `{Runtime}.
Import PdfUtils.

Lemma missing_not_gap i ts :
  filter (λ s, String.prefix gapPrefix s = true) (missingFieldIssues i ts) = [].
Proof.
  revert i. induction ts as [|t ts IH]; intros i; [done|]. simpl.
  rewrite !filter_app, IH.
  destruct (blank (date t)), (blank (description t)); reflexivity.
Qed.

Lemma dateGapIssues_cons a b l :
  dateGapIssues (a :: b :: l)
  = (if match daysDiff a b with Some d => gt d 30%Q | None => false end
     then [gapMessage a b] else [])
    ++ dateGapIssues (b :: l).
Proof. reflexivity. Qed.

Lemma gaps_all_gap l :
  filter (λ s, String.prefix gapPrefix s = true) (dateGapIssues l)
  = dateGapIssues l.
Proof.
  induction l as [|a [|b l] IH]; [done..|].
  rewrite dateGapIssues_cons, filter_app, IH. f_equal.
  destruct (match daysDiff a b with Some d => gt d 30%Q | None => false end);
    [|done].
  rewrite filter_cons_True; [done|]. apply prefix_app.
Qed.

Lemma gaps_guard l :
  (if (1 <? length l)%nat then dateGapIssues l else []) = dateGapIssues l.
Proof. by destruct l as [|? [|? ?]]. Qed.

(** The date-gap issues of a result are those of the sorted dates. *)
Lemma dateGapIssuesOf_validate ts f :
  dateGapIssuesOf (validateTransactionData ts f)
  = dateGapIssues (sortedDates ts).
Proof.
  unfold dateGapIssuesOf, validateTransactionData.
  destruct ts as [|t ts]; [done|]. cbn [issues].
  by rewrite gaps_guard, filter_app, missing_not_gap, gaps_all_gap.
Qed.

(** C10. Two transaction lists that are permutations of each other yield
    the same date-gap issues, in the same order and so as multisets, whatever
    the footers: the dates are collected and sorted before neighbours are
    compared. *)
Theorem date_gaps_permutation ts1 ts2 f1 f2 :
  ts1 ≡ₚ ts2 →
  dateGapIssuesOf (validateTransactionData ts1 f1)
  = dateGapIssuesOf (validateTransactionData ts2 f2).
Proof.
  intros Hp. rewrite !dateGapIssuesOf_validate. unfold sortedDates.
  f_equal. apply sort_Permutation. by rewrite Hp.
Qed.

(** The footer has no part in [isValid]. *)
Lemma isValid_footer_irrelevant ts f1 f2 :
  isValid (validateTransactionData ts f1)
  = isValid (validateTransactionData ts f2).
Proof. by destruct ts. Qed.

Lemma missing_nil i ts :
  missingFieldIssues i ts = []
  ↔ Forall (λ t, present (date t) ∧ present (description t)) ts.
Proof.
  revert i. induction ts as [|t ts IH]; intros i; simpl.
  - split; [constructor|done].
  - rewrite Forall_cons, <-(IH (S i)), <-!blank_false.
    destruct (blank (date t)), (blank (description t)); simpl;
      intuition congruence.
Qed.

Lemma gap_test d1 d2 :
  match daysDiff d1 d2 with Some d => gt d 30%Q | None => false end = true
  ↔ farApart d1 d2.
Proof.
  unfold daysDiff, farApart.
  destruct (Date_parse d1) as [p|], (Date_parse d2) as [c|];
    try (split; [done|intros (?&?&?&?&?); congruence]).
  rewrite gt_spec, days_apart. split; [by eauto|].
  by intros (?&?&[= <-]&[= <-]&?).
Qed.

Lemma gaps_nil l :
  dateGapIssues l = []
  ↔ ∀ i d1 d2, l !! i = Some d1 → l !! S i = Some d2 → ¬ farApart d1 d2.
Proof.
  induction l as [|a [|b l] IH].
  - split; [|done]. by intros _ i ?? ?.
  - split; [|done]. by intros _ [|i] ?? ? ?.
  - rewrite dateGapIssues_cons. pose proof (gap_test a b) as Hab.
    destruct (match daysDiff a b with Some d => gt d 30%Q | None => false end).
    + split; [done|]. intros Hall.
      destruct (Hall 0%nat a b); [done..|by apply Hab].
    + simpl app. rewrite IH. split.
      * intros Hall [|i] d1 d2 H1 H2.
        -- simplify_eq/=. rewrite <-Hab. done.
        -- by apply (Hall i).
      * intros Hall i d1 d2 H1 H2. by apply (Hall (S i)).
Qed.

Lemma keptDate_present t : present (date t) → keptDate t = date t.
Proof.
  intros (d & Hd & Ht). unfold keptDate. rewrite Hd.
  apply eqb_false_iff in Ht. by rewrite Ht.
Qed.

Lemma dates_all ts :
  Forall (λ t, present (date t) ∧ present (description t)) ts →
  Some <$> omap keptDate ts = date <$> ts.
Proof.
  induction 1 as [|t ts [Hd _] _ IH]; [done|].
  pose proof (keptDate_present t Hd) as Hk. destruct Hd as (d & Hd & _).
  rewrite Hd in Hk. cbn. rewrite Hk. cbn. rewrite Hd. f_equal. exact IH.
Qed.

(** C1 (amended). For every list of transactions, with or without a footer,
    [isValid] is true exactly when the list is not empty, every transaction
    has a date and a description that are not blank after trimming, and no
    two neighbouring dates in ascending order lie more than thirty days
    apart.  Neither the footer nor the accuracy warnings enter. *)
Theorem validate_isValid_iff ts footer :
  isValid (validateTransactionData ts footer) = true
  ↔ ts ≠ []
    ∧ Forall (λ t, present (date t) ∧ present (description t)) ts
    ∧ noDateGap ts.
Proof.
  destruct ts as [|t ts]; [by split; [|intros [? _]]|].
  unfold validateTransactionData. cbn [isValid].
  rewrite gaps_guard, Nat.eqb_eq, length_zero_iff_nil, app_nil, missing_nil.
  split.
  - intros [Hall Hgaps]. split; [done|]. split; [done|].
    intros l Hs Hp. rewrite <-(dates_all _ Hall) in Hp.
    apply Some_Permutation in Hp. apply (sort_unique _ _ Hs) in Hp as ->.
    by apply gaps_nil.
  - intros (_ & Hall & Hno). split; [done|].
    apply gaps_nil. apply Hno; [apply sort_sorted|].
    rewrite <-(dates_all _ Hall). unfold sortedDates. by rewrite sort_perm.
Qed.








End validation.

(** *** The validation engine on concrete statements *)

Section validation_examples.
Import PdfUtils Reference.

(** C1, as stated, fails three ways: on the empty list; on two complete
    transactions dated more than thirty days apart; on a transaction whose
    date is a single space.  In each case every transaction has a non-empty
    date and description, and [isValid] is false. *)
Lemma validate_isValid_counterexample :
  let complete t := nonEmpty (date t) ∧ nonEmpty (description t) in
  (Forall complete []
   ∧ isValid (validateTransactionData [] None) = false)
  ∧ (let ts := [entry "2024-01-05" "Rent" 900 4100;
                entry "2024-03-20" "Rent" 900 3200] in
     Forall complete ts
     ∧ isValid (validateTransactionData ts None) = false)
  ∧ (let ts := [entry " " "Rent" 900 4100] in
     Forall complete ts
     ∧ isValid (validateTransactionData ts None) = false).
Proof.
  cbv zeta. repeat split;
    repeat (apply Forall_cons; split; [split; eexists; by split|]);
    try apply Forall_nil; reflexivity.
Qed.

Example validate_gap_issue :
  issues (validateTransactionData
            [entry "2024-03-20" "Rent" 900 3200;
             entry "2024-01-05" "Rent" 900 4100] None)
  = ["Potential missing transactions between 2024-01-05 and 2024-03-20"].
Proof. reflexivity. Qed.

(** The same two transactions in either order, with and without a footer. *)
Lemma date_gaps_permutation_witness :
  let a := entry "2024-01-05" "Rent" 900 4100 in
  let b := entry "2024-03-20" "Rent" 900 3200 in
  [a; b] ≡ₚ [b; a]
  ∧ dateGapIssuesOf (validateTransactionData [a; b] None)
    = dateGapIssuesOf (validateTransactionData [b; a] (Some (onlyTotalDebits 5))).
Proof.
  cbv zeta. split; [apply perm_swap|].
  apply (date_gaps_permutation (H := runtime)). apply perm_swap.
Defined.



Example footer_mismatch_message :
  accuracyWarnings
    (validateTransactionData
       [entry "2024-02-03" "Card payment" 24.5 39975.5;
        entry "2024-02-04" "Direct debit" 20 39955.5]
       (Some (onlyTotalDebits 44)))
  = ["Total debits mismatch: Extracted 44.50, Footer shows 44.00 (Difference: 0.50)"].
Proof. reflexivity. Qed.

End validation_examples.

(** ** The tabular formatter *)

Section formatter.
Context `{Runtime}.
Import PdfUtils.

Lemma format_none : formatStructuredDataForExcel None = ([], noData).
Proof. done. Qed.

(** An empty transaction list gives the one-cell matrix. *)
Lemma format_empty d :
  transactions d = [] → formatStructuredDataForExcel (Some d) = ([], noData).
Proof. intros Ht. unfold formatStructuredDataForExcel. by rewrite Ht. Qed.

(** The header block and the transactions together make seven rows: the
    one-cell matrix is returned although there are transactions. *)
Lemma format_misfire d h :
  header d = Some h → transactions d ≠ [] →
  (length (headerRows h) + length (transactions d) = 6)%nat →
  formatStructuredDataForExcel (Some d) = ([], noData).
Proof.
  intros Hh Hne Hlen. unfold formatStructuredDataForExcel.
  destruct (transactions d) as [|t ts] eqn:Ht; [done|]. cbn [length Nat.eqb].
  rewrite Hh. rewrite !length_app, length_map. cbn [length] in *.
  assert ((length (headerRows h) + (1 + S (length ts)) =? 7)%nat = true)
    as -> by (apply Nat.eqb_eq; lia).
  done.
Qed.

(** In every other case with transactions the matrix is the described one:
    header rows and a blank row, the five column titles, one row per
    transaction in order, and for a footer a blank row and the footer rows. *)
Lemma format_layout d :
  transactions d ≠ [] →
  (∀ h, header d = Some h →
        (length (headerRows h) + length (transactions d))%nat ≠ 6%nat) →
  (formatStructuredDataForExcel (Some d)).2 = layout d.
Proof.
  intros Hne Hlen. unfold formatStructuredDataForExcel, layout.
  destruct (transactions d) as [|t ts] eqn:Ht; [done|]. cbn [length Nat.eqb].
  rewrite !length_app, length_map. cbn [length] in *.
  destruct (header d) as [h|].
  - specialize (Hlen h eq_refl).
    assert ((length (headerRows h) + (1 + S (length ts)) =? 7)%nat = false)
      as -> by (apply Nat.eqb_neq; lia).
    cbn [snd]. rewrite <-!app_assoc. by destruct (footer d).
  - cbn [app length Nat.add Nat.eqb snd]. by destruct (footer d).
Qed.

(** C2, at the failing input. A document with the header [{bankName:
    "ABC"}], four transactions and no footer is formatted to the one-cell
    "no data" matrix: the rows assembled before the footer number seven, the
    value the function takes to mean that only headers are present. *)
Theorem format_drops_four_transactions :
  length (transactions fourTransactions) = 4%nat
  ∧ formatStructuredDataForExcel (Some fourTransactions) = ([], noData).
Proof. split; reflexivity. Qed.

Example format_example :
  (formatStructuredDataForExcel (Some exampleDocument)).2 = exampleMatrix.
Proof. reflexivity. Qed.

End formatter.

(** ** The export *)

Lemma checkCells_message i j cells e :
  ExcelExport.checkCells i j cells = Some e → e ≠ "".
Proof.
  revert j. induction cells as [|c cells IH]; intros j; simpl; [done|].
  destruct c; eauto; intros [= <-]; done.
Qed.

Lemma checkCells_bad i j cells :
  Exists (λ c, ¬ allowedCell c) cells →
  is_Some (ExcelExport.checkCells i j cells).
Proof.
  intros Hex. revert j. induction Hex as [c cells Hc|c cells _ IH]; intros j.
  - destruct c; simpl in *; try tauto; eauto.
  - destruct c; simpl; eauto.
Qed.

Lemma checkRows_bad i rows :
  Exists invalidRow rows →
  ∃ e, ExcelExport.checkRows i rows = Some e ∧ e ≠ "".
Proof.
  intros Hex. revert i. induction Hex as [row rows Hrow|row rows _ IH]; intros i.
  - destruct row; simpl in *; try (eexists; split; done).
    destruct (checkCells_bad i 0 _ Hrow) as [e He]. rewrite He.
    eauto using checkCells_message.
  - destruct (IH (S i)) as (e & He & Hne).
    destruct row; simpl; try (eexists; split; done).
    destruct (ExcelExport.checkCells i 0 elems) as [e'|] eqn:Hc; [|eauto].
    eauto using checkCells_message.
Qed.

Section export.
Context `{Runtime}.
Import ExcelExport.

(** C9. For a matrix that is empty, has a row that is not an array, or has
    a cell that is neither a string, a number, null nor undefined,
    [exportToExcel] throws the validation error; its only effect is the
    console line that reports it: no worksheet, no workbook, no file. *)
Theorem export_rejects_invalid rows :
  rows = [] ∨ Exists invalidRow rows →
  ∃ msg, ∀ writeFails fileName,
    exportToExcel writeFails (Some rows) fileName
    = ([console (Js.error "Data validation failed:" [msg])],
       Some (mkError msg)).
Proof.
  intros [->|Hex].
  - exists "No data to export". done.
  - destruct (checkRows_bad 0 rows Hex) as (e & He & Hne).
    exists e. intros writeFails fileName.
    unfold exportToExcel, validateDataBeforeExport.
    destruct rows as [|row rows]; [by apply Exists_nil in Hex|].
    rewrite He. cbn [isValid error negb option_list].
    apply eqb_false_iff in Hne. simpl. by rewrite Hne.
Qed.




(** C5 (amended). On the matrix formatted from the example document, with
    a runtime in which the date is valid: the header row is row index 2; the
    cell at column 0 of row index 3 becomes a date cell; columns 2 and 4 of
    that row are numeric with the two-decimal format, column 3 holds null
    and has no cell; the pane is frozen below the header, at row index 3
    (cell A4). *)
Theorem example_typed tv :
  Date_parse "2024-02-03T00:00:00" = Some tv →
  let matrix :=
    (PdfUtils.formatStructuredDataForExcel (Some exampleDocument)).2 in
  let sheet := buildWorksheet (VArr <$> matrix) in
  matrix = exampleMatrix
  ∧ findTransactionTableBounds (VArr <$> matrix)
    = {| startRow := 2; endRow := 3; headerRow := 2 |}
  ∧ cellAt sheet 3 0
    = Some {| v := DateObject tv; t := "d"; z := Some "yyyy-mm-dd" |}
  ∧ cellAt sheet 3 2
    = Some {| v := Raw (VNum 24.5); t := "n"; z := Some "#,##0.00" |}
  ∧ cellAt sheet 3 3 = None
  ∧ cellAt sheet 3 4
    = Some {| v := Raw (VNum 39975.5); t := "n"; z := Some "#,##0.00" |}
  ∧ freeze sheet = Some {| xSplit := 0; ySplit := 3; topLeftCell := "A4" |}.
Proof.
  intros Hdate. cbv zeta.
  assert ((PdfUtils.formatStructuredDataForExcel (Some exampleDocument)).2
          = exampleMatrix) as -> by reflexivity.
  split; [done|].
  assert (findTransactionTableBounds (VArr <$> exampleMatrix)
          = {| startRow := 2; endRow := 3; headerRow := 2 |}) as Hb
    by reflexivity.
  split; [done|].
  unfold buildWorksheet, cellAt. rewrite Hb. cbn [cells freeze headerRow].
  repeat split; try reflexivity.
  cbn. unfold typeCell. cbn.
  change ("2024-02-03" +:+ "T00:00:00") with "2024-02-03T00:00:00".
  by rewrite Hdate.
Qed.

End export.

(** *** The export on concrete matrices *)

Section export_examples.
Import ExcelExport Reference.

(** A one-row matrix with a boolean in its second cell. *)
Lemma export_rejects_invalid_witness :
  let rows := [VArr [VStr "Date"; VBool true]] in
  (rows = [] ∨ Exists invalidRow rows)
  ∧ ∃ msg, ∀ writeFails fileName,
      exportToExcel writeFails (Some rows) fileName
      = ([console (Js.error "Data validation failed:" [msg])],
         Some (mkError msg)).
Proof.
  cbv zeta.
  assert ([VArr [VStr "Date"; VBool true]] = []
          ∨ Exists invalidRow [VArr [VStr "Date"; VBool true]]) as Hbad.
  { right. apply Exists_cons_hd. simpl. apply Exists_cons_tl, Exists_cons_hd.
    simpl. tauto. }
  split; [exact Hbad|].
  exact (export_rejects_invalid (H := runtime) _ Hbad).
Defined.

Example export_invalid_cell_message :
  exportToExcel None (Some [VArr [VStr "Date"; VBool true]]) "out.xlsx"
  = ([console (Js.error "Data validation failed:"
                 ["Invalid cell type at row 1, column 2"])],
     Some (mkError "Invalid cell type at row 1, column 2")).
Proof. reflexivity. Qed.



(** A formatted matrix with a footer: the blank row has no cell and the
    footer label ends in a colon, so neither ends the table, and the bounds
    run to the last row. *)
Example table_bounds_footed :
  findTransactionTableBounds (VArr <$> footedMatrix)
  = {| startRow := 0; endRow := 3; headerRow := 0 |}
  ∧ claimedBounds footedMatrix
    = {| startRow := 0; endRow := 1; headerRow := 0 |}.
Proof. split; reflexivity. Qed.

(** C5, as stated, fails on the row index and on column 3: the matrix has
    rows 0 to 3, so there is no cell at row index 4, and the frozen row is
    row index 3; column 3 of the transaction row holds null, for which the
    sheet has no cell, and a cell holding null there would be typed as text,
    not as a number. *)
Lemma example_frozen_row_counterexample :
  let sheet := buildWorksheet (VArr <$> exampleMatrix) in
  let bounds := findTransactionTableBounds (VArr <$> exampleMatrix) in
  length exampleMatrix = 4%nat
  ∧ cellAt sheet 4 0 = None
  ∧ ySplit <$> freeze sheet = Some 3%Z
  ∧ cellAt sheet 3 3 = None
  ∧ t (typeCell bounds 3 3 {| v := Raw VNull; t := "z"; z := None |}) = "s".
Proof. cbv zeta. repeat split. Qed.

(** The reference runtime reads the date as 2024-02-03T00:00:00Z. *)
Lemma example_typed_witness :
  Date_parse "2024-02-03T00:00:00" = Some 1706918400000%Z
  ∧ cellAt (buildWorksheet (VArr <$> exampleMatrix)) 3 0
    = Some {| v := DateObject 1706918400000; t := "d";
              z := Some "yyyy-mm-dd" |}.
Proof.
  split; [reflexivity|].
  apply (example_typed (H := runtime) 1706918400000%Z). reflexivity.
Defined.

(** Column 0 holds three cells: each widens the running width by two. *)
Example example_column_widths :
  cols (buildWorksheet (VArr <$> exampleMatrix)) = [16; 40; 15; 15; 18]%nat.
Proof. reflexivity. Qed.

End export_examples.

(** ** The structuring flow *)




Example flow_drops_incomplete :
  let complete :=
    {| StructureFlow.date := VStr "2024-02-03";
       StructureFlow.description := VStr "X";
       StructureFlow.debit := Some 24.5%Q; StructureFlow.credit := None;
       StructureFlow.balance := Some 39975.5%Q |} in
  let undated :=
    {| StructureFlow.date := VNull;
       StructureFlow.description := VStr "Balance brought forward";
       StructureFlow.debit := None; StructureFlow.credit := None;
       StructureFlow.balance := Some 40000%Q |} in
  let blank :=
    {| StructureFlow.date := VStr "2024-02-04";
       StructureFlow.description := VStr "  ";
       StructureFlow.debit := None; StructureFlow.credit := None;
       StructureFlow.balance := None |} in
  StructureFlow.structurePdfDataFlow
    (Some {| StructureFlow.header := None;
             StructureFlow.transactions := Some [undated; complete; blank];
             StructureFlow.footer := None |})
  = ([], returned {| StructureFlow.out_header := None;
                     StructureFlow.out_transactions := [complete];
                     StructureFlow.out_footer := None |}).
Proof. reflexivity. Qed.

(** ** The pipeline controller and the OCR fallback *)

Section ocr.
Import Page.

(** A text longer than the threshold is used as it is. *)
Lemma direct_text_used abortAfter directText pages st :
  (MIN_TEXT_LENGTH_FOR_TEXT_PDF < String.length directText)%nat →
  rawTextOutput abortAfter directText pages st = (st, returned directText).
Proof.
  intros Hlen. unfold rawTextOutput.
  assert (truthy (VStr directText) = true) as ->.
  { destruct directText; [simpl in Hlen; lia|done]. }
  assert ((MIN_TEXT_LENGTH_FOR_TEXT_PDF <? String.length directText)%nat = true)
    as -> by (by apply Nat.ltb_lt).
  done.
Qed.

(** A text of at most the threshold fails the test that keeps it. *)
Lemma short_text_condition directText :
  (String.length directText ≤ MIN_TEXT_LENGTH_FOR_TEXT_PDF)%nat →
  truthy (VStr directText)
  && (MIN_TEXT_LENGTH_FOR_TEXT_PDF <? String.length directText)%nat = false.
Proof.
  intros Hlen. apply andb_false_iff. right. apply Nat.ltb_ge. exact Hlen.
Qed.

(** C3, at the failing input. A direct text of exactly one hundred
    characters is not kept: the OCR path runs and its text is the result. *)
Theorem threshold_length_runs_ocr :
  String.length hundredChars = MIN_TEXT_LENGTH_FOR_TEXT_PDF
  ∧ rawTextOutput None hundredChars [scanned "from the scan"] start
    = ({| ocrTextFromAllPages := "from the scan" +:+ newline +:+ newline;
          loadingSteps := ["PDF has no text, using OCR to scan pages...";
                           "Scanning page 1 of 1..."];
          consoleLog := [];
          clock := 2 |},
       returned ("from the scan" +:+ newline +:+ newline)).
Proof. split; reflexivity. Qed.

(** One tolerable page: its text is appended, its failure logged. *)
Lemma onPage_tolerable p n T st :
  tolerable p →
  onPageProcessed None p n T st
  = ({| ocrTextFromAllPages := ocrTextFromAllPages st +:+ pageText p;
        loadingSteps :=
          loadingSteps st
          ++ ["Scanning page " +:+ pretty n +:+ " of " +:+ pretty T +:+ "..."];
        consoleLog := consoleLog st ++ failureLog n p;
        clock := S (clock st) |}, returned tt).
Proof.
  intros [_ Hrec]. unfold onPageProcessed, pageText, failureLog.
  unfold bind, aborted, tryCatch, setLoadingStep, await, throw, ret, append, log.
  cbn [ocrTextFromAllPages loadingSteps consoleLog clock].
  destruct (recognise p) as [[s|]|e].
  - simpl. destruct (String.eqb_spec s "") as [->|Hs]; simpl.
    + by rewrite str_app_nil_r, app_nil_r.
    + rewrite decide_False by done. by rewrite app_nil_r.
  - by rewrite str_app_nil_r, app_nil_r.
  - destruct Hrec as [-> Hname]. apply eqb_false_iff in Hname. rewrite Hname.
    cbn. rewrite str_app_nil_r, <-app_assoc. done.
Qed.







Example ocr_five_pages_log :
  consoleLog (rawTextOutput None "" fivePages start).1
  = [Js.error "Error processing page 3:" ["recognition timed out"];
     warn "Page 3 OCR failed, continuing with other pages..." []].
Proof. reflexivity. Qed.


(** Cancellation before the first page: nothing recognised, and the error
    is the cancellation. *)
Example ocr_cancelled_at_start :
  rawTextOutput (Some 0%nat) "" fivePages start
  = ({| ocrTextFromAllPages := "";
        loadingSteps := ["PDF has no text, using OCR to scan pages..."];
        consoleLog := [];
        clock := 0 |},
     thrown (ProcessingCancelledError "PDF to image conversion was cancelled")).
Proof. reflexivity. Qed.

End ocr.

(** ** The export, further *)

Lemma checkCells_None i j cells :
  ExcelExport.checkCells i j cells = None ↔ Forall allowedCell cells.
Proof.
  revert j. induction cells as [|c cells IH]; intros j; simpl.
  - split; [constructor|done].
  - rewrite Forall_cons. destruct c; simpl; rewrite ?IH; try tauto;
      (split; [done|tauto]).
Qed.

Lemma checkRows_None i rows :
  ExcelExport.checkRows i rows = None ↔ Forall validRow rows.
Proof.
  revert i. induction rows as [|row rows IH]; intros i; simpl.
  - split; [constructor|done].
  - rewrite Forall_cons. destruct row; simpl; try (split; [done|tauto]).
    destruct (ExcelExport.checkCells i 0 elems) eqn:Hc.
    + split; [done|]. intros [Hall _]. apply (checkCells_None i 0) in Hall. congruence.
    + apply checkCells_None in Hc. rewrite IH. tauto.
Qed.

Lemma validate_accepts data :
  ExcelExport.isValid (ExcelExport.validateDataBeforeExport data) = true
  ↔ ∃ rows, data = Some rows ∧ rows ≠ [] ∧ Forall validRow rows.
Proof.
  unfold ExcelExport.validateDataBeforeExport.
  destruct data as [[|row rows]|].
  - split; [done|]. by intros (? & [= <-] & ? & _).
  - pose proof (checkRows_None 0 (row :: rows)) as Hn.
    destruct (ExcelExport.checkRows 0 (row :: rows)) as [e|]; simpl.
    + split; [done|].
      intros (? & [= <-] & _ & Hall). apply Hn in Hall. done.
    + split; [|done]. intros _. exists (row :: rows).
      split; [done|]. split; [done|]. by apply Hn.
  - split; [done|]. by intros (? & ? & _).
Qed.


(** X1. [validateDataBeforeExport] accepts a matrix exactly when it is
    present, has at least one row, and every row is an array whose cells
    are strings, numbers, null or undefined; and it reports an error
    message exactly when it does not accept. *)
Theorem export_validation_accepts data :
  let r := ExcelExport.validateDataBeforeExport data in
  (ExcelExport.isValid r = true
   ↔ ∃ rows, data = Some rows ∧ rows ≠ [] ∧ Forall validRow rows)
  ∧ (ExcelExport.isValid r = true ↔ ExcelExport.error r = None).
Proof.
  cbv zeta. split; [apply validate_accepts|].
  unfold ExcelExport.validateDataBeforeExport.
  destruct data as [[|row rows]|]; [done| |done].
  by destruct (ExcelExport.checkRows 0 (row :: rows)).
Qed.

Lemma checkCells_first i j cpre c cpost :
  Forall allowedCell cpre → ¬ allowedCell c →
  ExcelExport.checkCells i j (cpre ++ c :: cpost)
  = Some ("Invalid cell type at row " +:+ pretty (i + 1)
          +:+ ", column " +:+ pretty (j + length cpre + 1)).
Proof.
  intros Hpre Hc. revert j. induction Hpre as [|x cpre Hx _ IH]; intros j.
  - simpl. destruct c; simpl in Hc; try tauto; by rewrite Nat.add_0_r.
  - replace (j + length (x :: cpre) + 1)%nat
      with (S j + length cpre + 1)%nat by (simpl; lia).
    simpl. destruct x; simpl in Hx; try tauto; by rewrite IH.
Qed.

Lemma checkRows_first i pre row post :
  Forall validRow pre →
  ExcelExport.checkRows i (pre ++ row :: post)
  = ExcelExport.checkRows (i + length pre) (row :: post).
Proof.
  intros Hpre. revert i. induction Hpre as [|x pre Hx _ IH]; intros i.
  - by rewrite Nat.add_0_r.
  - cbn [app ExcelExport.checkRows]. destruct x; simpl in Hx; try tauto.
    apply (checkCells_None i 0) in Hx. rewrite Hx, IH.
    by replace (S i + length pre)%nat with (i + length (VArr elems :: pre))%nat
      by (simpl; lia).
Qed.

(** X2. The message of a rejected matrix names the first offending place,
    counted from one: after rows that are all accepted, a row that is not
    an array gives "Row r is not an array", and a row whose first cell that
    is not allowed stands at column c gives "Invalid cell type at row r,
    column c". *)
Theorem export_validation_reports_first pre row post :
  Forall validRow pre →
  let r := ExcelExport.validateDataBeforeExport (Some (pre ++ row :: post)) in
  ((∀ cells, row ≠ VArr cells) →
   ExcelExport.error r
   = Some ("Row " +:+ pretty (length pre + 1) +:+ " is not an array"))
  ∧ (∀ cpre c cpost,
       row = VArr (cpre ++ c :: cpost) →
       Forall allowedCell cpre → ¬ allowedCell c →
       ExcelExport.error r
       = Some ("Invalid cell type at row " +:+ pretty (length pre + 1)
               +:+ ", column " +:+ pretty (length cpre + 1))).
Proof.
  intros Hpre. cbv zeta. unfold ExcelExport.validateDataBeforeExport.
  assert (∃ x l, pre ++ row :: post = x :: l) as (x & l & Hxl)
    by (destruct pre; simpl; eauto).
  rewrite Hxl, <-Hxl. rewrite checkRows_first by done. rewrite Nat.add_0_l.
  split.
  - intros Hna. cbn [ExcelExport.checkRows].
    destruct row; try done. by destruct (Hna elems).
  - intros cpre c cpost -> Hcpre Hc. cbn [ExcelExport.checkRows].
    rewrite checkCells_first by done. by rewrite Nat.add_0_l.
Qed.

Section export_more.
Context `{Runtime}.
Import ExcelExport.

Lemma validate_valid rows :
  rows ≠ [] → Forall validRow rows →
  validateDataBeforeExport (Some rows) = {| isValid := true; error := None |}.
Proof.
  intros Hne Hall. unfold validateDataBeforeExport.
  destruct rows as [|row rows]; [done|].
  apply (checkRows_None 0) in Hall. by rewrite Hall.
Qed.

(** X3. On an accepted matrix [exportToExcel] creates the sheet, puts the
    typed worksheet in a workbook and writes the file under the name it was
    given, and returns; when the writer throws, the error is logged and an
    [Error] "Failed to export Excel file: ..." with the writer's message
    ("Unknown error" for a thrown value that is no [Error]) is thrown. *)
Theorem export_writes_valid rows fileName :
  rows ≠ [] → Forall validRow rows →
  exportToExcel None (Some rows) fileName
  = ([sheetCreated; workbookCreated (buildWorksheet rows); writeFile fileName],
     None)
  ∧ ∀ raised,
      exportToExcel (Some raised) (Some rows) fileName
      = ([sheetCreated; workbookCreated (buildWorksheet rows);
          writeFile fileName;
          console (Js.error "Error writing Excel file:"
                     (option_list (message <$> raised)))],
         Some (mkError ("Failed to export Excel file: "
                        +:+ default "Unknown error" (message <$> raised)))).
Proof.
  intros Hne Hall. unfold exportToExcel. rewrite validate_valid by done.
  split; [done|]. intros [e|]; done.
Qed.

Lemma findHeaderRow_range i rows :
  findHeaderRow i rows = (-1)%Z
  ∨ (Z.of_nat i ≤ findHeaderRow i rows < Z.of_nat (i + length rows))%Z.
Proof.
  revert i. induction rows as [|row rows IH]; intros i; [by left|].
  assert (findHeaderRow (S i) rows = (-1)%Z
          ∨ (Z.of_nat i ≤ findHeaderRow (S i) rows
             < Z.of_nat (i + length (row :: rows)))%Z) as Hrest.
  { destruct (IH (S i)) as [->|Hr]; [by left|right]. cbn [length]. lia. }
  cbn [findHeaderRow]. destruct row; try exact Hrest.
  destruct ((5 <=? length elems)%nat && String.eqb (firstCell elems) "date");
    [right; cbn [length]; lia|exact Hrest].
Qed.

Lemma findEndRow_range i rows dflt :
  findEndRow i rows dflt = dflt
  ∨ (Z.of_nat i - 1 ≤ findEndRow i rows dflt < Z.of_nat (i + length rows) - 1)%Z.
Proof.
  revert i. induction rows as [|row rows IH]; intros i; [by left|].
  assert (findEndRow (S i) rows dflt = dflt
          ∨ (Z.of_nat i - 1 ≤ findEndRow (S i) rows dflt
             < Z.of_nat (i + length (row :: rows)) - 1)%Z) as Hrest.
  { destruct (IH (S i)) as [->|Hr]; [by left|right]. cbn [length]. lia. }
  cbn [findEndRow]. destruct row; try exact Hrest.
  destruct ((0 <? length elems)%nat && isBoundaryLabel (firstCell elems));
    [right; cbn [length]; lia|exact Hrest].
Qed.

(** X4. On a matrix with at least one row the bounds of the transaction
    table lie inside the matrix: the header row is a row of the matrix, the
    table starts at the header row, and its end row lies between the header
    row and the last row. *)
Theorem table_bounds_within data :
  data ≠ [] →
  let b := findTransactionTableBounds data in
  (0 ≤ headerRow b)%Z ∧ startRow b = headerRow b
  ∧ (headerRow b ≤ endRow b)%Z ∧ (endRow b < Z.of_nat (length data))%Z.
Proof.
  intros Hne. unfold findTransactionTableBounds. cbv zeta.
  assert (0 < length data)%nat by (destruct data; [done|simpl; lia]).
  destruct (findHeaderRow_range 0 data) as [Hm|Hh];
    [rewrite Hm; simpl; lia|].
  destruct (Z.eqb_spec (findHeaderRow 0 data) (-1)) as [Hm|_];
    [simpl; lia|].
  cbn [headerRow startRow endRow].
  set (h := findHeaderRow 0 data) in *.
  destruct (findEndRow_range (S (Z.to_nat h)) (drop (S (Z.to_nat h)) data)
              (Z.of_nat (length data) - 1)) as [->|He]; [lia|].
  rewrite length_drop in He. lia.
Qed.

(** X5. Every worksheet built by the export has a frozen pane: no column
    is frozen, and the rows frozen are those down to the header row of the
    table, which is row 0 when no header row was found. *)
Theorem worksheet_always_frozen data :
  ∃ pane, freeze (buildWorksheet data) = Some pane
          ∧ xSplit pane = 0%Z ∧ (1 ≤ ySplit pane)%Z
          ∧ (ySplit pane ≤ Z.of_nat (length data) `max` 1)%Z
          ∧ ySplit pane = (headerRow (findTransactionTableBounds data) + 1)%Z.
Proof.
  unfold buildWorksheet. cbn [freeze].
  assert (0 ≤ headerRow (findTransactionTableBounds data)
          < Z.of_nat (length data) `max` 1)%Z as Hh.
  { unfold findTransactionTableBounds. cbv zeta.
    destruct (findHeaderRow_range 0 data) as [Hm|Hh];
      [rewrite Hm; simpl; lia|].
    destruct (Z.eqb_spec (findHeaderRow 0 data) (-1)) as [Hm|_];
      simpl; lia. }
  destruct (Z.leb_spec 0 (headerRow (findTransactionTableBounds data)));
    [|lia].
  eexists. split; [done|]. simpl. lia.
Qed.

End export_more.

Section typing_more.
Context `{Runtime}.
Import ExcelExport.

Lemma bounds_start_header data :
  startRow (findTransactionTableBounds data)
  = headerRow (findTransactionTableBounds data).
Proof.
  unfold findTransactionTableBounds. cbv zeta.
  by destruct (findHeaderRow 0 data =? -1)%Z.
Qed.

Lemma cellAt_buildWorksheet data row col :
  cellAt (buildWorksheet data) row col
  = typeCell (findTransactionTableBounds data) row col
      <$> aoa_cell (entryAt data row col).
Proof.
  unfold buildWorksheet, cellAt, typeCells, aoa_to_sheet, entryAt.
  cbn [cells]. rewrite list_lookup_imap, list_lookup_fmap.
  destruct (data !! row) as [r|]; [|done]. simpl.
  rewrite list_lookup_imap, list_lookup_fmap. unfold index.
  by destruct (rowCells r !! col) as [c|].
Qed.

(** X6. The cell the export puts at a row and a column of the worksheet,
    read off the matrix alone: none for null and undefined; for a number a
    numeric cell in the two-decimal format, wherever it stands; for a string
    in column 0 that has the form YYYY-MM-DD, on a row after the header row
    and not after the end row, a date cell when the runtime can read the
    date; a text cell with the value unchanged in every other case,
    booleans included. *)
Theorem worksheet_typing data row col :
  let bounds := findTransactionTableBounds data in
  let asText x := Some {| v := Raw x; t := "s"; z := None |} in
  cellAt (buildWorksheet data) row col
  = match entryAt data row col with
    | VUndefined | VNull => None
    | VNum q => Some {| v := Raw (VNum q); t := "n"; z := Some "#,##0.00" |}
    | VStr s =>
        if matchesIsoDate s && (col =? 0)%nat
           && (headerRow bounds <? Z.of_nat row)%Z
           && (Z.of_nat row <=? endRow bounds)%Z
        then
          match Date_parse (s +:+ "T00:00:00") with
          | Some dateValue =>
              Some {| v := DateObject dateValue; t := "d";
                      z := Some "yyyy-mm-dd" |}
          | None => asText (VStr s)
          end
        else asText (VStr s)
    | x => asText x
    end.
Proof.
  cbv zeta. rewrite cellAt_buildWorksheet.
  pose proof (bounds_start_header data) as Hstart.
  set (bounds := findTransactionTableBounds data) in *.
  destruct (entryAt data row col) as [| |b|q|s|l|]; cbn [aoa_cell fmap option_fmap option_map];
    try done.
  - unfold typeCell. cbn [holdsNumber holdsIsoDate v z andb].
    rewrite !andb_false_r. done.
  - unfold typeCell. cbn [holdsNumber holdsIsoDate v z andb].
    rewrite !andb_true_r, !andb_false_r. by destruct (_ && _ && negb _).
  - unfold typeCell. cbn [holdsNumber holdsIsoDate v z andb text].
    rewrite !andb_false_r, Hstart.
    destruct (matchesIsoDate s); [|by rewrite andb_false_r].
    destruct (Nat.eqb_spec col 0) as [->|]; [|by rewrite andb_false_r].
    rewrite !andb_true_r. cbn [andb].
    destruct (Z.leb_spec (headerRow bounds) (Z.of_nat row)),
      (Z.ltb_spec (headerRow bounds) (Z.of_nat row)),
      (Z.eqb_spec (Z.of_nat row) (headerRow bounds)),
      (Z.leb_spec (Z.of_nat row) (endRow bounds)); cbn [andb negb];
      try lia; try done.
    by destruct (Date_parse _).
  - unfold typeCell. cbn [holdsNumber holdsIsoDate v z andb].
    rewrite !andb_false_r. done.
  - unfold typeCell. cbn [holdsNumber holdsIsoDate v z andb].
    rewrite !andb_false_r. done.
Qed.

End typing_more.

Section widths.
Context `{Runtime}.
Import ExcelExport.

Lemma widen_step col row rest w :
  widen col (row :: rest) w
  = if holdsValue (index (rowCells row) col)
    then widen col rest
           (((String.length (ToString (index (rowCells row) col)) `max` w) + 2)
              `min` 50)
    else widen col rest w.
Proof. simpl. by destruct (index (rowCells row) col). Qed.

Lemma populated_cons row rows col :
  populated (row :: rows) col
  = ((if holdsValue (index (rowCells row) col) then 1 else 0)
     + populated rows col)%nat.
Proof.
  unfold populated. rewrite filter_cons.
  destruct (holdsValue (index (rowCells row) col)); by case_decide.
Qed.

Lemma widen_bounds col rows w :
  (w ≤ 50)%nat →
  (w ≤ widen col rows w ≤ 50)%nat
  ∧ ((w + 2 * populated rows col) `min` 50 ≤ widen col rows w)%nat
  ∧ Forall (λ row, holdsValue (index (rowCells row) col) = true →
              ((String.length (ToString (index (rowCells row) col)) + 2)
                 `min` 50 ≤ widen col rows w)%nat) rows.
Proof.
  revert w. induction rows as [|row rows IH]; intros w Hw.
  - unfold populated. simpl. repeat split; [lia..|constructor].
  - rewrite widen_step, populated_cons.
    destruct (holdsValue (index (rowCells row) col)) eqn:Hv.
    + set (n := String.length (ToString (index (rowCells row) col))) in *.
      destruct (IH (((n `max` w) + 2) `min` 50)%nat) as (Hb & Hp & Hall); [lia|].
      repeat split; [lia..|].
      constructor; [intros _; lia|].
      eapply Forall_impl; [exact Hall|]. simpl. intros r Hr Hh. by apply Hr.
    + destruct (IH w Hw) as (Hb & Hp & Hall).
      repeat split; [lia..|].
      constructor; [congruence|done].
Qed.

Lemma columnWidth_bounds data col :
  (fixedMinimum col ≤ columnWidth data col ≤ 50)%nat
  ∧ ((10 + 2 * populated data col) `min` 50 ≤ columnWidth data col)%nat
  ∧ ∀ row x, entryAt data row col = x → holdsValue x = true →
      ((String.length (ToString x) + 2) `min` 50 ≤ columnWidth data col)%nat.
Proof.
  destruct (widen_bounds col data 10) as (Hb & Hp & Hall); [lia|].
  assert (widen col data 10 ≤ columnWidth data col
          ∧ fixedMinimum col ≤ columnWidth data col ≤ 50)%nat as [Hle Hfix].
  { unfold columnWidth, fixedMinimum.
    destruct col as [|[|[|[|[|col]]]]]; cbv zeta; cbn [Nat.eqb]; lia. }
  split; [exact Hfix|]. split; [lia|].
  intros row x Hx Hv. unfold entryAt in Hx.
  destruct (data !! row) as [r|] eqn:Hr; [|by subst].
  rewrite Forall_lookup in Hall. specialize (Hall _ _ Hr).
  rewrite Hx in Hall. specialize (Hall Hv). lia.
Qed.

Lemma maxCols_bound data :
  length (cols (buildWorksheet data)) = maxCols data
  ∧ Forall (λ row, length (rowCells row) ≤ maxCols data)%nat data.
Proof.
  split.
  - unfold buildWorksheet. cbn [cols]. by rewrite length_map, length_seq.
  - unfold maxCols. induction data as [|row data IH]; [constructor|].
    simpl. constructor; [lia|].
    eapply Forall_impl; [exact IH|]. simpl. intros. lia.
Qed.

(** X7. The worksheet has one column width for each column of the widest
    row.  Every width is at most 50 and at least the minimum of its column
    (12, 40, 15, 15, 18 for the five transaction columns, 10 beyond); it
    grows by two for every populated cell of the column until the cap; and
    it is at least the length of every text of the column plus two, capped
    at 50. *)
Theorem worksheet_column_widths data :
  length (cols (buildWorksheet data)) = maxCols data
  ∧ Forall (λ row, length (rowCells row) ≤ maxCols data)%nat data
  ∧ ∀ col width, cols (buildWorksheet data) !! col = Some width →
      (fixedMinimum col ≤ width ≤ 50)%nat
      ∧ ((10 + 2 * populated data col) `min` 50 ≤ width)%nat
      ∧ ∀ row x, entryAt data row col = x → holdsValue x = true →
          ((String.length (ToString x) + 2) `min` 50 ≤ width)%nat.
Proof.
  destruct (maxCols_bound data) as [Hlen Hrows].
  split; [done|]. split; [done|]. intros col width Hcol.
  assert (width = columnWidth data col) as ->; [|apply columnWidth_bounds].
  unfold buildWorksheet in Hcol. cbn [cols] in Hcol.
  apply list_lookup_fmap_Some in Hcol as (i & -> & Hi).
  apply lookup_seq in Hi as [-> _]. done.
Qed.

End widths.

(** ** The formatter, further *)

Section formatter_more.
Context `{Runtime}.
Import PdfUtils.

Lemma textRow_cases label v :
  textRow label v = [] ∨ ∃ s, textRow label v = [[VStr label; VStr s]].
Proof.
  unfold textRow. destruct v as [s|]; [|by left].
  destruct (truthy (VStr s)); eauto.
Qed.

Lemma numberRow_cases label v :
  numberRow label v = [] ∨ ∃ q, numberRow label v = [[VStr label; VNum q]].
Proof. unfold numberRow. destruct v; eauto. Qed.

Lemma format_cases d :
  formatStructuredDataForExcel (Some d) = ([], noData)
  ∨ (formatStructuredDataForExcel (Some d)).2 = layout d.
Proof.
  unfold formatStructuredDataForExcel, layout.
  destruct (length (transactions d) =? 0)%nat; [by left|].
  destruct (_ =? _)%nat; [by left|right].
  cbn [snd]. rewrite <-!app_assoc. by destruct (footer d).
Qed.

Lemma layout_length d :
  length (layout d)
  = (headerBlock d + 1 + length (transactions d)
     + match footer d with
       | Some f => 1 + length (footerRows f)
       | None => 0
       end)%nat.
Proof.
  unfold layout, headerBlock. rewrite !length_app, length_fmap.
  destruct (header d), (footer d); simpl; lia.
Qed.

(** X8. [formatStructuredDataForExcel] returns the "no data" matrix for a
    document exactly when the document has no transaction, or has a header
    whose rows, the blank row included, and the transactions number six
    together. *)
Theorem formatter_sentinel_iff d :
  (formatStructuredDataForExcel (Some d)).2 = noData
  ↔ transactions d = []
    ∨ (PdfUtils.header d ≠ None
       ∧ (headerBlock d + length (transactions d) = 6)%nat).
Proof.
  split.
  - intros Hs. destruct (transactions d) as [|t ts] eqn:Ht; [by left|right].
    destruct (header d) as [h|] eqn:Hh.
    + split; [done|].
      destruct (decide (headerBlock d + length (transactions d) = 6)%nat)
        as [He|Hne]; [by rewrite Ht in He|].
      rewrite format_layout in Hs.
      * apply (f_equal length) in Hs. rewrite layout_length, Ht in Hs.
        simpl in Hs. lia.
      * by rewrite Ht.
      * intros h' Hh'. unfold headerBlock in Hne. rewrite Hh in Hne.
        rewrite Hh in Hh'. by injection Hh' as <-.
    + rewrite format_layout in Hs.
      * apply (f_equal length) in Hs. rewrite layout_length, Ht in Hs.
        simpl in Hs. lia.
      * by rewrite Ht.
      * intros h' Hh'. by rewrite Hh in Hh'.
  - intros [Ht|[Hh Hlen]].
    + by rewrite format_empty.
    + destruct (header d) as [h|] eqn:Hh'; [|done].
      destruct (transactions d) as [|t ts] eqn:Ht.
      * by rewrite format_empty.
      * rewrite (format_misfire d h); [done|done|by rewrite Ht|].
        unfold headerBlock in Hlen. by rewrite Hh', <-Ht in Hlen.
Qed.

(** X9. When the formatter does not return the "no data" matrix, the
    column titles stand right after the header block, transaction number i
    is the row i + 1 places after the header block, and the matrix has one
    row for the titles, one for each transaction, and a blank row followed
    by the footer rows when there is a footer. *)
Theorem formatter_rows d :
  transactions d ≠ [] →
  (header d ≠ None → (headerBlock d + length (transactions d))%nat ≠ 6%nat) →
  let matrix := (formatStructuredDataForExcel (Some d)).2 in
  matrix !! headerBlock d = Some transactionHeaders
  ∧ (∀ i t, transactions d !! i = Some t →
            matrix !! (headerBlock d + 1 + i)%nat = Some (dataRow t))
  ∧ length matrix
    = (headerBlock d + 1 + length (transactions d)
       + match footer d with
         | Some f => 1 + length (footerRows f)
         | None => 0
         end)%nat.
Proof.
  intros Hne Hlen. cbv zeta. rewrite format_layout; [|done|].
  - split; [|split; [|apply layout_length]].
    + unfold layout, headerBlock. destruct (header d) as [h|]; [|done].
      by rewrite lookup_app_r, Nat.sub_diag.
    + intros i t Hi. unfold layout, headerBlock.
      assert (∀ pre, (pre ++ [transactionHeaders] ++ (dataRow <$> transactions d)
                     ++ match footer d with
                        | Some f => [] :: footerRows f
                        | None => []
                        end) !! (length pre + 1 + i)%nat = Some (dataRow t)) as Hpre.
      { intros pre. rewrite lookup_app_r by lia.
        replace (length pre + 1 + i - length pre)%nat with (S i) by lia.
        simpl. rewrite lookup_app_l.
        - by rewrite list_lookup_fmap, Hi.
        - rewrite length_fmap. by apply lookup_lt_Some in Hi. }
      destruct (header d) as [h|]; [apply Hpre|apply (Hpre [])].
  - intros h Hh. unfold headerBlock in Hlen. rewrite Hh in Hlen. by apply Hlen.
Qed.

Lemma rows_allowed (rows : list (list Val)) :
  Forall (Forall allowedCell) rows → Forall validRow (VArr <$> rows).
Proof. intros Hall. apply Forall_fmap. by eapply Forall_impl. Qed.

Lemma textRow_allowed label v : Forall (Forall allowedCell) (textRow label v).
Proof.
  destruct (textRow_cases label v) as [->|[s ->]]; repeat constructor.
Qed.

Lemma numberRow_allowed label v : Forall (Forall allowedCell) (numberRow label v).
Proof.
  destruct (numberRow_cases label v) as [->|[s ->]]; repeat constructor.
Qed.

Lemma headerRows_allowed h : Forall (Forall allowedCell) (headerRows h).
Proof.
  unfold headerRows.
  repeat (apply Forall_app; split;
          [first [apply textRow_allowed | apply numberRow_allowed]|]).
  repeat constructor.
Qed.

Lemma footerRows_allowed f : Forall (Forall allowedCell) (footerRows f).
Proof.
  unfold footerRows.
  repeat (apply Forall_app; split;
          [first [apply textRow_allowed | apply numberRow_allowed]|]).
  apply textRow_allowed.
Qed.

Lemma dataRow_allowed t : Forall allowedCell (dataRow t).
Proof.
  unfold dataRow, numberOrNull.
  destruct (debit t), (credit t), (balance t); repeat constructor.
Qed.

Lemma layout_allowed d : Forall (Forall allowedCell) (layout d).
Proof.
  unfold layout. apply Forall_app; split.
  { destruct (header d) as [h|]; [apply headerRows_allowed|constructor]. }
  apply Forall_app; split; [repeat constructor|].
  apply Forall_app; split.
  { apply Forall_fmap, Forall_forall. intros t _. apply dataRow_allowed. }
  destruct (footer d) as [f|]; [|constructor].
  constructor; [constructor|apply footerRows_allowed].
Qed.

Lemma formatted_valid sd :
  (formatStructuredDataForExcel sd).2 ≠ []
  ∧ Forall validRow (VArr <$> (formatStructuredDataForExcel sd).2).
Proof.
  destruct sd as [d|]; [|split; [done|repeat constructor]].
  destruct (format_cases d) as [->| ->]; [split; [done|repeat constructor]|].
  split; [|apply rows_allowed, layout_allowed].
  intros Hnil. apply (f_equal length) in Hnil. rewrite layout_length in Hnil.
  simpl in Hnil. lia.
Qed.

(** X10. Whatever the formatter returns can be exported: the matrix is
    never empty, every cell passes the validation of the export, and
    [exportToExcel] writes the file without throwing. *)
Theorem formatted_matrix_exports sd fileName :
  let matrix := (formatStructuredDataForExcel sd).2 in
  matrix ≠ []
  ∧ Forall validRow (VArr <$> matrix)
  ∧ ExcelExport.exportToExcel None (Some (VArr <$> matrix)) fileName
    = ([ExcelExport.sheetCreated;
        ExcelExport.workbookCreated (ExcelExport.buildWorksheet (VArr <$> matrix));
        ExcelExport.writeFile fileName], None).
Proof.
  cbv zeta. destruct (formatted_valid sd) as [Hne Hall].
  split; [done|]. split; [done|].
  unfold ExcelExport.exportToExcel. rewrite validate_valid; [done| |done].
  by destruct (formatStructuredDataForExcel sd).2.
Qed.

End formatter_more.

Section formatted_bounds.
Context `{Runtime}.
Import PdfUtils ExcelExport.

Lemma findHeaderRow_skip i pre rest :
  Forall shortRow pre →
  findHeaderRow i ((VArr <$> pre) ++ rest) = findHeaderRow (i + length pre) rest.
Proof.
  intros Hpre. revert i. induction Hpre as [|row pre Hrow _ IH]; intros i.
  - simpl. f_equal. lia.
  - cbn [fmap list_fmap app findHeaderRow length].
    fold (@fmap list _ _ _ VArr pre).
    assert ((5 <=? length row)%nat = false) as ->
      by (apply Nat.leb_gt; exact Hrow).
    cbn [andb]. rewrite IH. f_equal. lia.
Qed.

Lemma findEndRow_skip i rows dflt :
  Forall passedRow rows → findEndRow i (VArr <$> rows) dflt = dflt.
Proof.
  intros Hrows. revert i. induction Hrows as [|row rows Hrow _ IH]; intros i.
  - done.
  - cbn [fmap list_fmap findEndRow]. fold (@fmap list _ _ _ VArr rows).
    destruct Hrow as [->|Hrow].
    + cbn [length Nat.ltb Nat.leb andb]. apply IH.
    + rewrite Hrow, andb_false_r. apply IH.
Qed.

Lemma textRow_short label v : Forall shortRow (textRow label v).
Proof.
  destruct (textRow_cases label v) as [->|[s ->]]; repeat constructor;
    unfold shortRow; simpl; lia.
Qed.

Lemma numberRow_short label v : Forall shortRow (numberRow label v).
Proof.
  destruct (numberRow_cases label v) as [->|[s ->]]; repeat constructor;
    unfold shortRow; simpl; lia.
Qed.

Lemma headerRows_short h : Forall shortRow (headerRows h).
Proof.
  unfold headerRows.
  repeat (apply Forall_app; split;
          [first [apply textRow_short | apply numberRow_short]|]).
  repeat constructor; unfold shortRow; simpl; lia.
Qed.

Lemma firstCell_label label rest :
  label ≠ "" → firstCell (VStr label :: rest) = toLowerCase label.
Proof.
  intros Hne. unfold firstCell. cbn [index truthy].
  destruct label; [done|]. reflexivity.
Qed.

Lemma textRow_passed label v :
  label ≠ "" → isBoundaryLabel (toLowerCase label) = false →
  Forall passedRow (textRow label v).
Proof.
  intros Hne Hb. destruct (textRow_cases label v) as [->|[s ->]];
    [constructor|]. constructor; [|constructor].
  right. by rewrite firstCell_label.
Qed.

Lemma numberRow_passed label v :
  label ≠ "" → isBoundaryLabel (toLowerCase label) = false →
  Forall passedRow (numberRow label v).
Proof.
  intros Hne Hb. destruct (numberRow_cases label v) as [->|[s ->]];
    [constructor|]. constructor; [|constructor].
  right. by rewrite firstCell_label.
Qed.

Lemma footerRows_passed f : Forall passedRow (footerRows f).
Proof.
  unfold footerRows.
  repeat (apply Forall_app; split; [by apply numberRow_passed|]).
  by apply textRow_passed.
Qed.

Lemma firstCell_dataRow t :
  firstCell (dataRow t) = toLowerCase (default "" (date t)).
Proof.
  unfold firstCell, dataRow. cbn [index truthy].
  by destruct (default "" (date t)).
Qed.

(** X11. On a matrix the formatter built from transactions whose dates,
    in lower case, are neither empty nor one of the boundary labels, the
    table found by the export starts at the row of the column titles and
    ends on the last row of the matrix: the blank row has no cell and the
    footer labels end in a colon, so the footer rows count as rows of the
    table. *)
Theorem formatted_table_bounds d :
  transactions d ≠ [] →
  (header d ≠ None → (headerBlock d + length (transactions d))%nat ≠ 6%nat) →
  (∀ t, t ∈ transactions d →
        isBoundaryLabel (toLowerCase (default "" (date t))) = false) →
  let matrix := (formatStructuredDataForExcel (Some d)).2 in
  findTransactionTableBounds (VArr <$> matrix)
  = {| startRow := Z.of_nat (headerBlock d);
       endRow := Z.of_nat (length matrix) - 1;
       headerRow := Z.of_nat (headerBlock d) |}.
Proof.
  intros Hne Hlen Hdates. cbv zeta. rewrite format_layout; [|done|].
  2:{ intros h Hh. unfold headerBlock in Hlen. rewrite Hh in Hlen. by apply Hlen. }
  set (pre := match header d with Some h => headerRows h | None => [] end).
  set (post := (dataRow <$> transactions d)
               ++ match footer d with
                  | Some f => [] :: footerRows f
                  | None => []
                  end).
  assert (layout d = pre ++ transactionHeaders :: post) as Hl by done.
  assert (headerBlock d = length pre) as Hk
    by (unfold headerBlock, pre; by destruct (header d)).
  assert (Forall shortRow pre) as Hshort.
  { unfold pre. destruct (header d); [apply headerRows_short|constructor]. }
  assert (Forall passedRow post) as Hpassed.
  { unfold post. apply Forall_app; split.
    - apply Forall_fmap, Forall_forall. intros t Ht. right.
      rewrite firstCell_dataRow. by apply Hdates.
    - destruct (footer d); [|constructor].
      constructor; [by left|apply footerRows_passed]. }
  rewrite Hl, Hk. clearbody pre post.
  unfold findTransactionTableBounds.
  rewrite fmap_app, fmap_cons, findHeaderRow_skip by done.
  cbn [findHeaderRow]. 
  assert ((5 <=? length transactionHeaders)%nat
          && String.eqb (firstCell transactionHeaders) "date" = true) as ->
    by reflexivity.
  cbv zeta. rewrite Nat.add_0_l.
  destruct (Z.eqb_spec (Z.of_nat (length pre)) (-1)) as [?|_]; [lia|].
  f_equal. rewrite Nat2Z.id.
  rewrite <-fmap_cons, <-fmap_app, <-fmap_drop.
  replace (S (length pre)) with (length (pre ++ [transactionHeaders]))
    by (rewrite length_app; simpl; lia).
  rewrite (cons_middle transactionHeaders pre post), app_assoc, drop_app_length.
  rewrite findEndRow_skip by done. by rewrite length_fmap.
Qed.

End formatted_bounds.

(** ** Validation and the structuring flow, further *)

Section validation_more.
Context `{Runtime}.
Import PdfUtils.

Lemma missingFieldIssues_elem x k ts :
  x ∈ missingFieldIssues k ts
  ↔ ∃ i t, ts !! i = Some t
           ∧ (blank (date t) = true ∧ x = missingIssue (k + i + 1) "date"
              ∨ blank (description t) = true
                ∧ x = missingIssue (k + i + 1) "description").
Proof.
  revert k. induction ts as [|t ts IH]; intros k.
  - split; [by intros ?%elem_of_nil|by intros (i & t & ? & _)].
  - cbn [missingFieldIssues]. rewrite !elem_of_app, IH. split.
    + intros [Hd|[Hd|(i & t' & Hi & Hx)]].
      * exists 0%nat, t. split; [done|]. left. rewrite Nat.add_0_r.
        destruct (blank (date t)); [|by apply elem_of_nil in Hd].
        by apply list_elem_of_singleton in Hd.
      * exists 0%nat, t. split; [done|]. right. rewrite Nat.add_0_r.
        destruct (blank (description t)); [|by apply elem_of_nil in Hd].
        by apply list_elem_of_singleton in Hd.
      * exists (S i), t'. split; [done|].
        by replace (k + S i + 1)%nat with (S k + i + 1)%nat by lia.
    + intros ([|i] & t' & Hi & Hx).
      * injection Hi as <-. rewrite Nat.add_0_r in Hx.
        destruct Hx as [[-> ->]|[-> ->]];
          [left|right; left]; by apply list_elem_of_singleton.
      * right. right. exists i, t'. split; [done|].
        by replace (S k + i + 1)%nat with (k + S i + 1)%nat by lia.
Qed.

(** X14. The issues of [validateTransactionData] are exactly: "No
    transactions found" on an empty list; for a transaction without a date,
    or without a description, "Transaction n: Missing date" or
    "... Missing description" with n its position counted from one; and the
    date-gap issues of the sorted dates. *)
Theorem validation_issues ts footer x :
  x ∈ issues (validateTransactionData ts footer)
  ↔ (ts = [] ∧ x = "No transactions found")
    ∨ (∃ i t, ts !! i = Some t
              ∧ (blank (date t) = true ∧ x = missingIssue (i + 1) "date"
                 ∨ blank (description t) = true
                   ∧ x = missingIssue (i + 1) "description"))
    ∨ x ∈ dateGapIssues (sortedDates ts).
Proof.
  destruct ts as [|t ts].
  - cbn. rewrite list_elem_of_singleton. split; [by left|].
    intros [[_ ->]|[(i & t & Hi & _)|Hg]]; [done|done|].
    by apply elem_of_nil in Hg.
  - unfold validateTransactionData. cbn [issues].
    rewrite gaps_guard, elem_of_app, missingFieldIssues_elem.
    split; [intros [?|?]; auto|]. intros [[? _]|[?|?]]; [done|auto..].
Qed.

End validation_more.

Section flow_more.
Context `{Runtime}.




End flow_more.

(** ** The OCR fallback, further *)

Section ocr_more.
Import Page.

Lemma convert_outcomes abortAfter pages st :
  match convertPdfPagesToImageUrisIncremental abortAfter pages st with
  | (_, returned _) => True
  | (_, thrown e) =>
      e = conversionCancelled ∨ e = conversionNetworkError
      ∨ e = conversionFailed
  end.
Proof.
  unfold convertPdfPagesToImageUrisIncremental, tryCatch.
  destruct (renderPages abortAfter 1 (length pages) pages st) as [st' [[]|e]];
    [done|].
  unfold bind, aborted, throw, logError, log.
  destruct (_ || includes (message e) "cancelled"); [by left|].
  destruct (_ || includes (message e) "fetch"); auto.
Qed.

(** X12. The text handed to the structuring step is never empty: it is
    the direct text, with nothing else done, when that is longer than the
    threshold, and the text recognised page by page otherwise.  When no
    text is handed over, the error is one of four: the cancellation, the
    network error or the failure of the conversion, or "OCR failed to
    extract any text from the document.". *)
Theorem raw_text_outcomes abortAfter directText pages st :
  match rawTextOutput abortAfter directText pages st with
  | (st', returned text) =>
      text ≠ ""
      ∧ ((MIN_TEXT_LENGTH_FOR_TEXT_PDF < String.length directText)%nat
         ∧ text = directText ∧ st' = st
         ∨ (String.length directText ≤ MIN_TEXT_LENGTH_FOR_TEXT_PDF)%nat
           ∧ text = ocrTextFromAllPages st')
  | (_, thrown e) =>
      (String.length directText ≤ MIN_TEXT_LENGTH_FOR_TEXT_PDF)%nat
      ∧ (e = conversionCancelled ∨ e = conversionNetworkError
         ∨ e = conversionFailed ∨ e = ocrFailed)
  end.
Proof.
  destruct (Nat.ltb_spec MIN_TEXT_LENGTH_FOR_TEXT_PDF (String.length directText))
    as [Hlong|Hshort].
  - rewrite direct_text_used by done. split; [|by left].
    intros ->. simpl in Hlong. lia.
  - unfold rawTextOutput. rewrite short_text_condition by done.
    unfold bind at 1. unfold setLoadingStep at 1. unfold bind at 1.
    match goal with
    | |- context [convertPdfPagesToImageUrisIncremental ?a ?p ?s] =>
        pose proof (convert_outcomes a p s) as Hc;
        destruct (convertPdfPagesToImageUrisIncremental a p s) as [st' [[]|e]]
    end.
    + cbn [truthy]. unfold throw, ret.
      destruct (String.eqb_spec (ocrTextFromAllPages st') "") as [Heq|Hne];
        cbn [negb].
      * split; [done|]. by do 3 right.
      * split; [done|]. by right.
    + split; [done|]. destruct Hc as [->|[->| ->]]; auto.
Qed.

Lemma onPage_before_abort n p pageNum T st :
  (clock st < n)%nat →
  onPageProcessed (Some n) p pageNum T st = onPageProcessed None p pageNum T st.
Proof.
  intros Hlt. apply Nat.leb_gt in Hlt.
  unfold onPageProcessed, bind, aborted, tryCatch, setLoadingStep.
  cbn beta. cbn [clock]. rewrite Hlt. cbn beta. cbn [clock]. by rewrite ?Hlt.
Qed.

Lemma half_step m : (2 ≤ m)%nat → (m / 2 = S ((m - 2) / 2))%nat.
Proof.
  intros Hm. replace m with ((m - 2) + 1 * 2)%nat at 1 by lia.
  rewrite Nat.div_add by lia. lia.
Qed.

(** The page loop under a signal that fires before its last check. *)
Lemma renderPages_cancelled n pages pageNum T st :
  Forall tolerable pages →
  pages ≠ [] →
  (n < clock st + 2 * length pages)%nat →
  ∃ e,
    renderPages (Some n) pageNum T pages st
    = ({| ocrTextFromAllPages :=
            ocrTextFromAllPages st
            +:+ recognisedText (take ((n - clock st) / 2) pages);
          loadingSteps :=
            loadingSteps st
            ++ scanSteps pageNum T (take ((n - clock st) / 2) pages);
          consoleLog :=
            consoleLog st
            ++ failureLogs pageNum (take ((n - clock st) / 2) pages);
          clock := n `max` clock st |}, thrown e).
Proof.
  intros Hall. revert pageNum st.
  induction Hall as [|p pages Hp Hall IH]; intros pageNum st Hne Hn; [done|].
  cbn [renderPages]. unfold bind at 1. unfold aborted at 1.
  destruct (Nat.leb_spec n (clock st)) as [Hfired|Hnot].
  - eexists. unfold throw.
    replace ((n - clock st) / 2)%nat with 0%nat
      by (replace (n - clock st)%nat with 0%nat by lia; done).
    cbn [take recognisedText foldr scanSteps failureLogs].
    rewrite str_app_nil_r, !app_nil_r, Nat.max_r by done. by destruct st.
  - unfold bind at 1. unfold await at 1.
    pose proof Hp as [[uri Huri] Hrec]. rewrite Huri.
    unfold bind at 1.
    destruct (decide (n = S (clock st))) as [->|Hlater].
    + eexists. unfold onPageProcessed. unfold bind at 1. unfold aborted at 1.
      cbn [clock]. rewrite Nat.leb_refl. unfold throw.
      replace ((S (clock st) - clock st) / 2)%nat with 0%nat
        by (replace (S (clock st) - clock st)%nat with 1%nat by lia; done).
      cbn [take recognisedText foldr scanSteps failureLogs].
      rewrite str_app_nil_r, !app_nil_r. f_equal. f_equal. lia.
    + rewrite onPage_before_abort by (cbn [clock]; lia).
      rewrite onPage_tolerable by done.
      cbn [ocrTextFromAllPages loadingSteps consoleLog clock].
      match goal with
      | |- context [renderPages _ _ _ _ ?s] =>
          destruct (IH (S pageNum) s) as [e He];
            [destruct pages; [cbn [clock length] in *; lia|done]
            |cbn [clock length] in *; lia|]
      end.
      exists e. rewrite He.
      cbn [ocrTextFromAllPages loadingSteps consoleLog clock].
      rewrite (half_step (n - clock st)) by lia.
      replace (n - S (S (clock st)))%nat with (n - clock st - 2)%nat by lia.
      cbn [take recognisedText foldr scanSteps failureLogs].
      rewrite str_app_assoc, <-!app_assoc. f_equal. f_equal. lia.
Qed.

(** X13. When the abort signal fires before the last check of the page
    loop, over pages that render and whose recognition does not itself
    cancel, the conversion throws the cancellation error "PDF to image
    conversion was cancelled"; the pages recognised before the signal fired
    have left their text, their loading steps and their failure lines, and
    no page after them was touched. *)
Theorem cancelled_mid_scan n pages st :
  Forall tolerable pages →
  pages ≠ [] →
  (n < clock st + 2 * length pages)%nat →
  convertPdfPagesToImageUrisIncremental (Some n) pages st
  = ({| ocrTextFromAllPages :=
          ocrTextFromAllPages st
          +:+ recognisedText (take ((n - clock st) / 2) pages);
        loadingSteps :=
          loadingSteps st
          ++ scanSteps 1 (length pages) (take ((n - clock st) / 2) pages);
        consoleLog :=
          consoleLog st ++ failureLogs 1 (take ((n - clock st) / 2) pages);
        clock := n `max` clock st |}, thrown conversionCancelled).
Proof.
  intros Hall Hne Hn. unfold convertPdfPagesToImageUrisIncremental, tryCatch.
  destruct (renderPages_cancelled n pages 1 (length pages) st Hall Hne Hn)
    as [e ->].
  unfold bind, aborted. cbn [clock].
  assert ((n <=? n `max` clock st)%nat = true) as ->
    by (apply Nat.leb_le; lia).
  done.
Qed.

End ocr_more.

(** ** The text-to-table parser *)

Section text_table.
Import TextTable.

Lemma rowsOf_filled cells lines :
  (∀ line, Forall (λ cell, cell ≠ "") (cells line)) →
  filled (rowsOf cells lines).
Proof.
  intros Hcells. unfold filled, rowsOf. apply Forall_forall.
  intros row [Hlen [line [-> _]]%list_elem_of_fmap]%list_elem_of_filter.
  split; [|apply Hcells]. intros Hnil. rewrite Hnil in Hlen. simpl in Hlen. lia.
Qed.

Lemma cellsOf_nonempty pieces : Forall (λ cell, cell ≠ "") (cellsOf pieces).
Proof.
  unfold cellsOf. apply Forall_forall. by intros cell [? _]%list_elem_of_filter.
Qed.

Lemma rowsOf_length cells lines : (length (rowsOf cells lines) ≤ length lines)%nat.
Proof.
  unfold rowsOf. etransitivity; [apply length_filter|]. by rewrite length_fmap.
Qed.

Lemma free_app class s t : free class (s +:+ t) = free class s && free class t.
Proof.
  induction s as [|c s IH]; [done|].
  rewrite app_cons. cbn [free]. by rewrite IH, andb_assoc.
Qed.

Lemma free_rev_app class s t :
  free class (String.rev_app s t) = free class s && free class t.
Proof.
  revert t. induction s as [|c s IH]; intros t; [done|].
  cbn [String.rev_app free]. rewrite IH. cbn [free].
  by destruct (class c), (free class s), (free class t).
Qed.

Lemma free_rev class s : free class (String.rev s) = free class s.
Proof. unfold String.rev. rewrite free_rev_app. cbn [free]. apply andb_true_r. Qed.

Lemma free_trimStart class s : free class s = true → free class (trimStart s) = true.
Proof.
  induction s as [|c s IH]; [done|]. cbn [free trimStart].
  intros [Hc Hs]%andb_true_iff. destruct (isWhiteSpace c); [by apply IH|].
  cbn [free]. by rewrite Hc, Hs.
Qed.

Lemma free_trim class s : free class s = true → free class (trim s) = true.
Proof.
  intros Hs. unfold trim, trimEnd. rewrite free_rev. apply free_trimStart.
  rewrite free_rev. by apply free_trimStart.
Qed.

(** Splitting at every run of separators leaves none in the pieces. *)
Lemma splitRuns_go_free sep cell run s :
  free sep cell = true → (String.length run = 0 → run = "")%nat →
  Forall (λ piece, free sep piece = true) (splitRuns_go sep 1 cell run s).
Proof.
  revert cell run. induction s as [|c s IH]; intros cell run Hcell Hrun.
  - cbn [splitRuns_go]. destruct run as [|r run].
    + cbn. rewrite str_app_nil_r. by repeat constructor.
    + cbn. by repeat constructor.
  - cbn [splitRuns_go]. destruct (sep c) eqn:Hc.
    + apply IH; [done|]. destruct run; done.
    + destruct run as [|r run].
      * cbn. apply IH; [|done].
        rewrite !free_app, Hcell. cbn [free]. by rewrite Hc.
      * cbn. constructor; [done|]. apply IH; [|done]. cbn [free]. by rewrite Hc.
Qed.

Lemma wordsTable_free text :
  Forall (Forall (λ cell, free isWhiteSpace cell = true)) (wordsTable text).
Proof.
  unfold wordsTable, rowsOf. apply Forall_forall.
  intros row [_ [line [-> _]]%list_elem_of_fmap]%list_elem_of_filter.
  unfold cellsOf. apply Forall_forall.
  intros cell [_ [piece [-> Hpiece]]%list_elem_of_fmap]%list_elem_of_filter.
  apply free_trim.
  pose proof (splitRuns_go_free isWhiteSpace "" "" line eq_refl (λ _, eq_refl))
    as Hall.
  rewrite Forall_forall in Hall. by apply Hall.
Qed.

(** X27. [parseTextToTableData] returns the empty table only for the empty
    text; its table has no empty row and no empty cell, and at most one row
    for each line that is not blank (one row at least).  The table is the
    text read by columns; or, when that gives several rows of one cell each
    and reading word by word does not, the text read word by word, whose
    cells hold no white space; or the whole text as one cell when no line
    gave a cell. *)
Theorem parsed_table text :
  let table := (parseTextToTableData text).2 in
  (table = [] ↔ text = "")
  ∧ filled table
  ∧ (length table ≤ length (textLines text) `max` 1)%nat
  ∧ (text ≠ "" →
     (table = wordsTable text
      ∧ Forall (Forall (λ cell, free isWhiteSpace cell = true)) table
      ∧ (1 < length (columnsTable text))%nat
      ∧ Forall (λ row, length row = 1%nat) (columnsTable text)
      ∧ ¬ Forall (λ row, length row = 1%nat) table)
     ∨ (table = columnsTable text ∧ table ≠ [])
     ∨ (table = [[text]] ∧ columnsTable text = [])).
Proof.
  cbv zeta. unfold parseTextToTableData. cbn [snd truthy].
  destruct (String.eqb_spec text "") as [->|Hne]; cbn [negb].
  { split; [done|]. split; [constructor|]. split; [simpl; lia|done]. }
  fold (textLines text). fold (columnsTable text). fold (wordsTable text).
  assert (filled (columnsTable text)) as Ht
    by (apply rowsOf_filled; intros line; apply cellsOf_nonempty).
  assert (filled (wordsTable text)) as Hr
    by (apply rowsOf_filled; intros line; apply cellsOf_nonempty).
  pose proof (rowsOf_length
    (λ line, cellsOf (splitRuns (λ c, Ascii.eqb c " ") 2 (replaceTabs line)))
    (textLines text)) as Hlt. fold (columnsTable text) in Hlt.
  pose proof (rowsOf_length (λ line, cellsOf (splitRuns isWhiteSpace 1 line))
    (textLines text)) as Hlr. fold (wordsTable text) in Hlr.
  assert (∀ table, everySingle table = true
                   ↔ Forall (λ row, length row = 1%nat) table) as Hsingle.
  { intros table. unfold everySingle. rewrite forallb_forall, Forall_forall.
    split; intros Hall row Hrow.
    - apply Nat.eqb_eq, Hall. by apply list_elem_of_In.
    - apply Nat.eqb_eq, Hall. by apply list_elem_of_In. }
  destruct (everySingle (columnsTable text)
            && (1 <? length (columnsTable text))%nat
            && ((0 <? length (wordsTable text))%nat
                && negb (everySingle (wordsTable text)))) eqn:Hre.
  - apply andb_true_iff in Hre as [[Hs Hmany]%andb_true_iff
                                   [Hpos Hns]%andb_true_iff].
    apply Nat.ltb_lt in Hpos, Hmany. apply Hsingle in Hs.
    apply negb_true_iff in Hns.
    split; [|split; [done|split; [lia|]]].
    { split; [|done]. intros Hnil. rewrite Hnil in Hpos. simpl in Hpos. lia. }
    intros _. left. split; [done|]. split; [apply wordsTable_free|].
    do 2 (split; [done|]). intros Hall%Hsingle. congruence.
  - destruct (Nat.ltb_spec 0 (length (columnsTable text))) as [Hpos|Hzero].
    + assert (columnsTable text ≠ []) as Hnn.
      { intros Hnil. rewrite Hnil in Hpos. simpl in Hpos. lia. }
      split; [by split|]. split; [done|]. split; [lia|]. intros _. right. by left.
    + split; [done|]. split; [repeat constructor; done|]. split; [simpl; lia|].
      intros _. right. right. split; [done|].
      destruct (columnsTable text); [done|simpl in Hzero; lia].
Qed.

End text_table.

(** ** Direct text extraction *)

Section direct_text_extraction.
Import Page PdfText.

Lemma readPages_readable pages fullText st :
  Forall readable pages →
  readPages None pages fullText st
  = ({| ocrTextFromAllPages := ocrTextFromAllPages st;
        loadingSteps := loadingSteps st;
        consoleLog := consoleLog st;
        clock := clock st + 2 * length pages |},
     returned (fullText +:+ fullTextOf pages)).
Proof.
  intros Hall. revert fullText st.
  induction Hall as [|page pages [Hget [items Hitems]] _ IH];
    intros fullText st.
  - cbn. unfold ret. rewrite str_app_nil_r, Nat.add_0_r. by destruct st.
  - cbn [readPages]. unfold bind at 1. unfold aborted at 1.
    rewrite Hget, Hitems. unfold bind at 1. unfold await at 1.
    unfold bind at 1. unfold await at 1. rewrite IH.
    cbn [ocrTextFromAllPages loadingSteps consoleLog clock length fullTextOf
         foldr]. unfold itemsOf at 1. rewrite Hitems.
    rewrite !str_app_assoc. do 2 f_equal. lia.
Qed.

Lemma whitespace_app s t :
  free (λ c, negb (isWhiteSpace c)) (s +:+ t)
  = free (λ c, negb (isWhiteSpace c)) s && free (λ c, negb (isWhiteSpace c)) t.
Proof. apply free_app. Qed.

Lemma trimStart_whitespace s :
  free (λ c, negb (isWhiteSpace c)) s = true → trimStart s = "".
Proof.
  induction s as [|c s IH]; [done|]. cbn [free trimStart].
  intros [Hc Hs]%andb_true_iff. rewrite negb_involutive in Hc.
  rewrite Hc. by apply IH.
Qed.

Lemma trim_whitespace s :
  free (λ c, negb (isWhiteSpace c)) s = true → trim s = "".
Proof. intros Hs. unfold trim. by rewrite trimStart_whitespace. Qed.

Lemma join_whitespace strs :
  Forall (λ s, free (λ c, negb (isWhiteSpace c)) s = true) strs →
  free (λ c, negb (isWhiteSpace c)) (join strs) = true.
Proof.
  induction 1 as [|s strs Hs _ IH]; [done|].
  cbn [join]. destruct strs as [|s' strs]; [done|].
  rewrite !whitespace_app, Hs, IH. done.
Qed.

Lemma fullTextOf_whitespace pages :
  Forall textless pages →
  free (λ c, negb (isWhiteSpace c)) (fullTextOf pages) = true.
Proof.
  induction 1 as [|page pages Hp _ IH]; [done|].
  cbn [fullTextOf foldr]. fold (fullTextOf pages).
  rewrite !whitespace_app, IH, andb_true_r.
  unfold PdfText.pageText. rewrite join_whitespace; [done|].
  by apply Forall_fmap.
Qed.

(** X28. Without cancellation, on a document whose pages can all be
    read, [extractTextFromPdf] returns the trimmed concatenation of the
    page texts, each the items joined by spaces and followed by a blank
    line; it logs nothing but a failed clean-up; and when the items hold
    nothing but white space the text is empty, so that the pipeline
    falls back to OCR. *)
Theorem text_extraction pdf st :
  Forall readable (pages pdf) →
  extractTextFromPdf None (returned pdf) st
  = ({| ocrTextFromAllPages := ocrTextFromAllPages st;
        loadingSteps := loadingSteps st;
        consoleLog :=
          consoleLog st
          ++ match destroy pdf with
             | Some e => [warn "Error cleaning up PDF document:" [message e]]
             | None => []
             end;
        clock := S (clock st) + 2 * length (pages pdf) |},
     returned (trim (fullTextOf (pages pdf))))
  ∧ (Forall textless (pages pdf) → trim (fullTextOf (pages pdf)) = "").
Proof.
  intros Hall. split; [|by intros ?%fullTextOf_whitespace%trim_whitespace].
  unfold extractTextFromPdf, tryCatch. unfold bind at 1. unfold await at 1.
  unfold bind at 1. rewrite readPages_readable by done.
  unfold ret. cbn [ocrTextFromAllPages loadingSteps consoleLog clock].
  change ("" +:+ fullTextOf (pages pdf)) with (fullTextOf (pages pdf)).
  destruct (destroy pdf) as [e|]; cbn; [done|]. by rewrite app_nil_r.
Qed.

(** X29. Whatever the document and the signal, [extractTextFromPdf]
    returns a trimmed text or throws one of three errors: the cancellation
    "PDF text extraction was cancelled", the network error, or "Failed to
    extract text from PDF. ...". *)
Theorem text_extraction_outcomes abortAfter document st :
  match extractTextFromPdf abortAfter document st with
  | (_, returned text) => ∃ fullText, text = trim fullText
  | (_, thrown e) =>
      e = ProcessingCancelledError "PDF text extraction was cancelled"
      ∨ e = NetworkError
              "Network error while extracting text from PDF. Please check your connection and try again."
      ∨ e = mkError
              "Failed to extract text from PDF. Please ensure the file is a valid PDF."
  end.
Proof.
  unfold extractTextFromPdf, tryCatch.
  set (body := bind (await document) _).
  assert (match body st with
          | (_, returned text) => ∃ fullText, text = trim fullText
          | (_, thrown _) => True
          end) as Hbody.
  { unfold body, bind, await, ret.
    destruct document as [pdf|e]; [|done].
    destruct (readPages abortAfter (pages pdf) "" _) as [st' [fullText|e]];
      [by eexists|done]. }
  destruct (body st) as [st' [text|e]].
  - destruct document as [pdf|?]; [destruct (destroy pdf)|]; exact Hbody.
  - unfold bind, aborted, throw, logError, log.
    destruct (_ || includes (message e) "cancelled").
    { destruct document as [pdf|?]; [destruct (destroy pdf)|]; by left. }
    destruct (_ || includes (message e) "fetch");
      (destruct document as [pdf|?]; [destruct (destroy pdf)|]); auto.
Qed.

End direct_text_extraction.

(** ** The handler of a selected file *)

Section file_select.
Context `{Runtime}.
Import Page FileSelect.



End file_select.

(** ** The download handler *)

Section download.
Context `{Runtime}.
Import Download.

Lemma extensionChars_app s t :
  extensionChars (s +:+ t) = extensionChars s && extensionChars t.
Proof.
  induction s as [|c s IH]; [done|].
  rewrite app_cons. cbn [extensionChars]. by rewrite IH, andb_assoc.
Qed.

Lemma stripExtension_plain s : extensionChars s = true → stripExtension s = s.
Proof.
  induction s as [|c s IH]; [done|]. cbn [extensionChars stripExtension].
  intros [Hc Hs]%andb_true_iff. rewrite IH by done.
  unfold extensionChar in Hc. apply andb_true_iff in Hc as [_ Hdot].
  apply negb_true_iff in Hdot. by rewrite Hdot.
Qed.

Lemma stripExtension_dotted base ext :
  ext ≠ "" → extensionChars ext = true →
  stripExtension (base +:+ "." +:+ ext) = base.
Proof.
  intros Hne Hext. induction base as [|c base IH].
  - change ("" +:+ "." +:+ ext) with (String "." ext).
    cbn [stripExtension]. rewrite Hext.
    apply eqb_false_iff in Hne. by rewrite Hne.
  - rewrite app_cons. cbn [stripExtension]. rewrite IH.
    assert (extensionChars (base +:+ "." +:+ ext) = false) as ->; [|by rewrite andb_false_r].
    rewrite extensionChars_app. apply andb_false_iff. right.
    change ("." +:+ ext) with (String "." ext). reflexivity.
Qed.

Lemma stripExtension_cases name :
  (∃ base ext, ext ≠ "" ∧ extensionChars ext = true
               ∧ name = base +:+ "." +:+ ext)
  ∨ stripExtension name = name.
Proof.
  induction name as [|c name IH]; [by right|].
  cbn [stripExtension].
  destruct (Ascii.eqb_spec c ".") as [->|Hc].
  - destruct (String.eqb_spec name "") as [->|Hne]; [by right|].
    destruct (extensionChars name) eqn:Hext.
    + left. by exists "", name.
    + cbn [andb negb]. destruct IH as [(base & ext & ? & ? & ->)| ->];
        [left|by right].
      exists (String "." base), ext. by rewrite app_cons.
  - cbn [andb]. destruct IH as [(base & ext & ? & ? & ->)| ->]; [left|by right].
    exists (String c base), ext. by rewrite app_cons.
Qed.

(** X16. The name of the downloaded file: the extension of the selected
    file, a last dot followed by one or more characters other than dots and
    slashes, is replaced by ".xlsx"; a name without such an extension gets
    ".xlsx" appended. *)
Theorem download_file_name name :
  (∀ base ext, ext ≠ "" → plainName ext → name = base +:+ "." +:+ ext →
               originalFileName name = base +:+ ".xlsx")
  ∧ ((∀ base ext, ext ≠ "" → plainName ext → name ≠ base +:+ "." +:+ ext) →
     originalFileName name = name +:+ ".xlsx").
Proof.
  unfold originalFileName, plainName. split.
  - intros base ext Hne Hext ->. by rewrite stripExtension_dotted.
  - intros Hno. destruct (stripExtension_cases name)
      as [(base & ext & Hne & Hext & ->)| ->]; [|done].
    by destruct (Hno base ext).
Qed.

Lemma updatedFiles_eq now newFile files :
  updatedFiles now newFile files
  = newFile :: take (MAX_FILE_COUNT - 1) (filter (recent now) files).
Proof.
  unfold updatedFiles, recent. cbv zeta.
  set (kept := filter _ files).
  destruct (Nat.ltb_spec MAX_FILE_COUNT (length (newFile :: kept))) as [Hl|Hl].
  - done.
  - cbn [length] in Hl. rewrite take_ge; [done|]. unfold MAX_FILE_COUNT in *.
    simpl. lia.
Qed.

(** X17. The history written to local storage starts with the file just
    downloaded, holds at most twelve entries, and after the first holds
    the entries of the previous history younger than twenty-four hours, in
    their order, all of them when they are fewer than twelve. *)
Theorem download_history now newFile files :
  let stored := updatedFiles now newFile files in
  head stored = Some newFile
  ∧ (length stored ≤ MAX_FILE_COUNT)%nat
  ∧ tail stored `prefix_of` filter (recent now) files
  ∧ Forall (recent now) (tail stored)
  ∧ ((length (filter (recent now) files) < MAX_FILE_COUNT)%nat →
     tail stored = filter (recent now) files).
Proof.
  cbv zeta. rewrite updatedFiles_eq. cbn [head tail length].
  split; [done|]. split.
  { rewrite length_take. unfold MAX_FILE_COUNT. lia. }
  split; [apply prefix_take|]. split.
  - apply Forall_take, Forall_forall. by intros f [Hf _]%list_elem_of_filter.
  - intros Hl. apply take_ge. unfold MAX_FILE_COUNT in *. lia.
Qed.


End download.

(** ** The preview *)

Section preview.
Context `{Runtime}.
Import DataPreview.

Lemma max_length_bound (rows : list (list Val)) :
  Forall (λ row, (length row ≤ foldr Nat.max 0 (length <$> rows))%nat) rows.
Proof.
  induction rows as [|row rows IH]; [constructor|].
  cbn [fmap list_fmap foldr]. constructor; [lia|].
  eapply Forall_impl; [exact IH|]. intros r Hr. simpl in Hr. lia.
Qed.

Lemma max_length_attained (rows : list (list Val)) :
  rows ≠ [] → ∃ row, row ∈ rows ∧ length row = foldr Nat.max 0 (length <$> rows).
Proof.
  induction rows as [|row rows IH]; [done|]. intros _.
  cbn [fmap list_fmap foldr].
  destruct (Nat.max_spec (length row) (foldr Nat.max 0 (length <$> rows)))
    as [[Hlt ->]|[Hle ->]].
  - destruct rows as [|r rows']; [simpl in Hlt; lia|].
    destruct IH as (r' & Hin & Hr'); [done|]. exists r'.
    split; [by right|done].
  - exists row. split; [by left|done].
Qed.

(** X19. The preview shows nothing for a missing or empty matrix.
    Otherwise it shows the first hundred rows, every row with as many cells
    as there are column headings; no cell of a shown row is cut off, the
    widest shown row fills every column, and the cell at a place is the
    formatted entry of the matrix at that place. *)
Theorem preview_table data :
  match DataPreview data with
  | None => data = None ∨ data = Some []
  | Some table =>
      ∃ rows, data = Some rows ∧ rows ≠ []
        ∧ length (body table) = (length rows `min` PREVIEW_ROW_LIMIT)%nat
        ∧ Forall (λ cells, length cells = length (headings table)) (body table)
        ∧ (∀ i row, (i < PREVIEW_ROW_LIMIT)%nat → rows !! i = Some row →
             (length row ≤ length (headings table))%nat
             ∧ ∀ j, (j < length (headings table))%nat →
                    body table !! i ≫= (.!! j)
                    = Some (formatCellValue (index row j)))
        ∧ (∃ row, row ∈ take PREVIEW_ROW_LIMIT rows
                  ∧ length row = length (headings table))
  end.
Proof.
  unfold DataPreview. cbv zeta. unfold displayData.
  destruct data as [rows|]; [|by left].
  destruct rows as [|r rows']; [by right|].
  set (rows := r :: rows'). cbn [length Nat.eqb].
  assert (take PREVIEW_ROW_LIMIT rows ≠ []) as Hne by done.
  destruct (length (take PREVIEW_ROW_LIMIT rows) =? 0)%nat eqn:Hz.
  { apply Nat.eqb_eq in Hz. by destruct (take PREVIEW_ROW_LIMIT rows). }
  exists rows. split; [done|]. split; [done|].
  cbn [body headings]. rewrite !length_fmap, length_seq, length_take.
  split; [lia|]. split.
  { apply Forall_fmap, Forall_forall. intros row _. simpl.
    by rewrite length_fmap, length_seq. }
  split.
  - intros i row Hi Hrow.
    assert (take PREVIEW_ROW_LIMIT rows !! i = Some row) as Ht
      by (by rewrite lookup_take_lt).
    split.
    + pose proof (max_length_bound (take PREVIEW_ROW_LIMIT rows)) as Hb.
      rewrite Forall_forall in Hb. apply Hb. by eapply list_elem_of_lookup_2.
    + intros j Hj. rewrite list_lookup_fmap, Ht. cbn.
      rewrite list_lookup_fmap, lookup_seq_lt by done. done.
  - unfold maxColumns. by apply max_length_attained.
Qed.

End preview.

(** ** Error classification and retries *)

Section errors.
Import Errors ErrorHandler.

(** X20. [getErrorStatusCode] gives 400, 401, 403, 404, 500, 503 or 507,
    unless the error is a [NetworkError] that carries a status other than
    zero, which is then returned as it is. *)
Theorem status_code_range error :
  getErrorStatusCode error ∈ ownStatuses
  ∨ ∃ m s url, error = NetworkError m (Some s) url ∧ ¬ (s == 0)%Q
               ∧ getErrorStatusCode error = s.
Proof.
  unfold getErrorStatusCode, ownStatuses. cbv zeta.
  destruct error as [m f v|m v|m [s|] url|m r a|m r i|m|n m [c|]|m c|v];
    try (left; cbn; by repeat constructor).
  - cbn [isNetworkError statusCode andb truthy].
    destruct (Qeq_bool s 0) eqn:Hs; cbn [negb].
    + left. cbn. by repeat constructor.
    + right. exists m, s, url. split; [done|]. split; [|done].
      intros Hz. apply Qeq_bool_iff in Hz. congruence.
  - cbn [isNetworkError andb isFirebaseAuthError isFirebaseSDKError isError
         code default isPermissionError isNotFoundError isValidationError
         isEnvError].
    left. repeat (match goal with |- context [if ?b then _ else _] =>
                    destruct b end); by repeat constructor.
Qed.

(** X21. An error is retried only if it is a [NetworkError] or carries a
    string code: validation, environment, permission, not-found and
    cancellation errors never are; and the status of an error that is
    retried is 408 or at least 500. *)
Theorem retryable_errors error :
  isRetryableError error = true →
  (isNetworkError error = true ∨ (isError error = true ∧ is_Some (code error)))
  ∧ isValidationError error = false ∧ isPermissionError error = false
  ∧ isNotFoundError error = false ∧ isEnvError error = false
  ∧ isProcessingCancelledError error = false
  ∧ (Qle_bool 500 (getErrorStatusCode error) = true
     ∨ Qeq_bool (getErrorStatusCode error) 408 = true).
Proof.
  destruct error as [m f v|m v|m [s|] url|m r a|m r i|m|n m [c|]|m c|v];
    try done.
  - unfold isRetryableError, getErrorStatusCode.
    cbn [isNetworkError statusCode andb truthy default].
    intros Hr. split; [by left|]. repeat (split; [done|]).
    destruct (Qeq_bool s 0) eqn:Hz; cbn [negb] in *; [left; reflexivity|].
    cbn [orb] in Hr. by apply orb_true_iff in Hr.
  - intros _. split; [by left|]. repeat (split; [done|]). left. reflexivity.
  - unfold isRetryableError, getErrorStatusCode.
    cbn [isNetworkError isFirebaseAuthError isFirebaseSDKError isError code
         default andb statusCode isValidationError isPermissionError
         isNotFoundError orb].
    unfold id.
    intros Hr. split; [right; split; [done|by eexists]|].
    repeat (split; [done|]).
    destruct (startsWith c "auth/").
    + rewrite Hr. left. reflexivity.
    + destruct (_ || startsWith c "functions/"); [|done].
      destruct (String.eqb_spec c "storage/unauthorized") as [->|_];
        [by vm_compute in Hr|].
      destruct (String.eqb_spec c "firestore/permission-denied") as [->|_];
        [by vm_compute in Hr|].
      destruct (String.eqb_spec c "storage/object-not-found") as [->|_];
        [by vm_compute in Hr|].
      destruct (String.eqb_spec c "firestore/not-found") as [->|_];
        [by vm_compute in Hr|].
      destruct (String.eqb_spec c "storage/quota-exceeded") as [->|_];
        [by vm_compute in Hr|].
      left. reflexivity.
Qed.

(** X22. The user-facing message is empty only when the message of the
    error itself is empty, and never for a Firebase, environment, network,
    permission or not-found error. *)
Theorem friendly_message_empty error :
  getUserFriendlyErrorMessage error = "" →
  getErrorMessage error = ""
  ∧ isFirebaseAuthError error = false ∧ isFirebaseSDKError error = false
  ∧ isEnvError error = false ∧ isNetworkError error = false
  ∧ isPermissionError error = false ∧ isNotFoundError error = false.
Proof.
  unfold getUserFriendlyErrorMessage. cbv zeta.
  destruct (isFirebaseAuthError error) eqn:Hauth.
  { repeat (match goal with |- context [if ?b then _ else _] =>
              destruct b end; [done|]). done. }
  destruct (isFirebaseSDKError error) eqn:Hsdk.
  { repeat (match goal with |- context [if ?b then _ else _] =>
              destruct b end; [done|]). done. }
  destruct error as [m f v|m v|m s url|m r a|m r i|m|n m c|m c|v];
    cbn [isValidationError isEnvError isNetworkError isPermissionError
         isNotFoundError statusCode message truthy]; try done.
  - destruct s as [s|]; [|done].
    repeat (match goal with |- context [if ?b then _ else _] =>
              destruct b end; [done|]). done.
  - destruct (negb (String.eqb m "")) eqn:Hm; [|done].
    intros ->. done.
  - destruct (negb (String.eqb m "")) eqn:Hm; [|done].
    intros ->. done.
Qed.

Lemma attempts_outcome {T} (fn : nat → Result T) retries retryDelay
    lastError remaining attempt :
  (attempt + remaining = S retries)%nat → (0 < remaining)%nat →
  ∃ k, (attempt ≤ k ≤ retries)%nat
    ∧ (∀ j, (attempt ≤ j < k)%nat →
            ∃ e, fn j = Threw e ∧ isRetryableError e = true)
    ∧ (∀ e, fn k = Threw e → isRetryableError e = false ∨ k = retries)
    ∧ attempts fn retries retryDelay lastError remaining attempt
      = let before :=
          flat_map (λ j, [called; waited (retryDelay * S j)])
            (seq attempt (k - attempt)) in
        match fn k with
        | Returned value => (before ++ [called], Returned value)
        | Threw e => (before ++ [called; reported e (S k)], Threw e)
        end.
Proof.
  revert lastError attempt.
  induction remaining as [|remaining IH]; intros lastError attempt Hsum Hpos;
    [lia|].
  cbn [attempts]. destruct (fn attempt) as [value|e] eqn:Hfn.
  - exists attempt. split; [lia|]. split; [intros j ?; lia|].
    split; [by rewrite Hfn|]. by rewrite Hfn, Nat.sub_diag.
  - cbv zeta. destruct (isRetryableError e) eqn:Hr; cbn [negb orb].
    + destruct (Nat.ltb_spec retries (S attempt)) as [Hlast|Hmore].
      * exists attempt. split; [lia|]. split; [intros j ?; lia|].
        rewrite Hfn, Nat.sub_diag. split; [|done].
        intros ? [= <-]. right. lia.
      * destruct (IH e (S attempt)) as (k & Hk & Hbefore & Hstop & ->);
          [lia|lia|].
        exists k. split; [lia|]. split; [|split; [done|]].
        { intros j Hj. destruct (decide (j = attempt)) as [->|Hne].
          - by exists e.
          - apply Hbefore. lia. }
        assert ((S attempt <=? retries)%nat = true) as ->
          by (apply Nat.leb_le; lia).
        replace (k - attempt)%nat with (S (k - S attempt)) by lia.
        cbn [seq flat_map]. cbv zeta. by destruct (fn k).
    + exists attempt. split; [lia|]. split; [intros j ?; lia|].
      rewrite Hfn, Nat.sub_diag. split; [|done]. intros ? [= <-]. by left.
Qed.

(** X23. [handleAsyncError] calls the function until a call returns,
    throws an error that is not retryable, or the retries are used up: at
    most retries + 1 calls; it waits retryDelay times the number of the
    attempt before each new call; it returns what the last call returned,
    or reports once and rethrows, unchanged, what the last call threw. *)
Theorem retry_outcome {T} (fn : nat → Result T) retries retryDelay :
  ∃ k, (k ≤ retries)%nat
    ∧ (∀ j, (j < k)%nat → ∃ e, fn j = Threw e ∧ isRetryableError e = true)
    ∧ (∀ e, fn k = Threw e → isRetryableError e = false ∨ k = retries)
    ∧ handleAsyncError fn retries retryDelay
      = match fn k with
        | Returned value => (retried retryDelay k ++ [called], Returned value)
        | Threw e =>
            (retried retryDelay k ++ [called; reported e (S k)], Threw e)
        end.
Proof.
  unfold handleAsyncError, retried.
  destruct (attempts_outcome fn retries retryDelay (Primitive VUndefined)
              (S retries) 0) as (k & Hk & Hbefore & Hstop & ->); [lia|lia|].
  exists k. split; [lia|]. split; [intros j ?; apply Hbefore; lia|].
  split; [done|]. by rewrite Nat.sub_0_r.
Qed.

End errors.

(** ** The environment *)

Section env.
Import Env.
Variable JSON_parse : string → Outcome Json.

Lemma set_configured env key :
  set (env !! key) = true ↔ configured env key.
Proof.
  unfold set, configured. destruct (env !! key) as [v|]; cbn [truthy].
  - rewrite negb_true_iff, eqb_false_iff. split; [by exists v|].
    by intros (? & [= <-] & ?).
  - split; [done|]. by intros (? & ? & _).
Qed.

Lemma getRequiredEnv_cases env key :
  (configured env key ∧ ∃ value, env !! key = Some value
                                 ∧ getRequiredEnv env key = returned value)
  ∨ (¬ configured env key
     ∧ getRequiredEnv env key
       = thrown (mkError ("Required environment variable " +:+ key
                          +:+ " is not set"))).
Proof.
  unfold getRequiredEnv. cbv zeta. rewrite <-set_configured.
  destruct (set (env !! key)) eqn:Hs; cbn [negb]; [left|right; by split].
  split; [done|]. destruct (env !! key) as [v|]; [by exists v|done].
Qed.

(** X24. [getEnv] reads the required variables in the order
    GEMINI_API_KEY, PAYPAL_CLIENT_ID, PAYPAL_CLIENT_SECRET and throws for
    the first that is unset or empty, naming it; when all three are set it
    throws exactly what parsing the service account throws, and otherwise
    returns the values of the environment, with NODE_ENV "development" when
    that is unset. *)
Theorem getEnv_required env :
  (∀ before key after,
     requiredVariables = before ++ key :: after →
     Forall (configured env) before → ¬ configured env key →
     getEnv JSON_parse env
     = thrown (mkError ("Required environment variable " +:+ key
                        +:+ " is not set")))
  ∧ (Forall (configured env) requiredVariables →
     match getEnv JSON_parse env,
           parseFirebaseServiceAccount JSON_parse
             (env !! "FIREBASE_SERVICE_ACCOUNT") with
     | returned result, returned account =>
         env !! "GEMINI_API_KEY" = Some (GEMINI_API_KEY result)
         ∧ env !! "PAYPAL_CLIENT_ID" = Some (PAYPAL_CLIENT_ID result)
         ∧ env !! "PAYPAL_CLIENT_SECRET" = Some (PAYPAL_CLIENT_SECRET result)
         ∧ FIREBASE_SERVICE_ACCOUNT result = account
         ∧ NODE_ENV result ≠ ""
         ∧ (¬ configured env "NODE_ENV" → NODE_ENV result = "development")
     | thrown e, thrown e' => e = e'
     | _, _ => False
     end).
Proof.
  split.
  - intros before key after Hreq Hbefore Hkey. unfold requiredVariables in Hreq.
    unfold getEnv.
    destruct before as [|k1 before]; simplify_eq/=.
    { by destruct (getRequiredEnv_cases env "GEMINI_API_KEY")
        as [[? _]|[_ ->]]. }
    apply Forall_cons in Hbefore as [H1 Hbefore].
    destruct (getRequiredEnv_cases env "GEMINI_API_KEY")
      as [(_ & v1 & _ & ->)|[? _]]; [|done].
    destruct before as [|k2 before]; simplify_eq/=.
    { by destruct (getRequiredEnv_cases env "PAYPAL_CLIENT_ID")
        as [[? _]|[_ ->]]. }
    apply Forall_cons in Hbefore as [H2 Hbefore].
    destruct (getRequiredEnv_cases env "PAYPAL_CLIENT_ID")
      as [(_ & v2 & _ & ->)|[? _]]; [|done].
    destruct before as [|k3 before]; simplify_eq/=.
    { by destruct (getRequiredEnv_cases env "PAYPAL_CLIENT_SECRET")
        as [[? _]|[_ ->]]. }
    by destruct before.
  - intros Hall. unfold requiredVariables in Hall.
    rewrite !Forall_cons in Hall. destruct Hall as (H1 & H2 & H3 & _).
    unfold getEnv.
    destruct (getRequiredEnv_cases env "GEMINI_API_KEY")
      as [(_ & v1 & Hv1 & ->)|[? _]]; [|done].
    destruct (getRequiredEnv_cases env "PAYPAL_CLIENT_ID")
      as [(_ & v2 & Hv2 & ->)|[? _]]; [|done].
    destruct (getRequiredEnv_cases env "PAYPAL_CLIENT_SECRET")
      as [(_ & v3 & Hv3 & ->)|[? _]]; [|done].
    unfold getOptionalEnv.
    destruct (parseFirebaseServiceAccount _ _) as [account|e]; [|done].
    cbn. do 4 (split; [done|]). unfold nodeEnv, getOptionalEnv.
    pose proof (set_configured env "NODE_ENV") as Hset.
    destruct (set (env !! "NODE_ENV")).
    + destruct Hset as [Hset _]. destruct (Hset eq_refl) as (v & Hv & Hne).
      rewrite Hv. split; [done|]. intros Hno. destruct Hno. by exists v.
    + done.
Qed.

(** X25. [hasEmailJSConfig] holds exactly when [getEmailJSConfig] gives a
    configuration, which is exactly when the three EmailJS variables are
    set to non-empty values; the configuration holds those values. *)
Theorem emailjs_config env :
  (hasEmailJSConfig env = true ↔ is_Some (getEmailJSConfig env))
  ∧ (is_Some (getEmailJSConfig env)
     ↔ configured env "NEXT_PUBLIC_EMAILJS_SERVICE_ID"
       ∧ configured env "NEXT_PUBLIC_EMAILJS_TEMPLATE_ID"
       ∧ configured env "NEXT_PUBLIC_EMAILJS_PUBLIC_KEY")
  ∧ ∀ config, getEmailJSConfig env = Some config →
      env !! "NEXT_PUBLIC_EMAILJS_SERVICE_ID" = Some (serviceId config)
      ∧ env !! "NEXT_PUBLIC_EMAILJS_TEMPLATE_ID" = Some (templateId config)
      ∧ env !! "NEXT_PUBLIC_EMAILJS_PUBLIC_KEY" = Some (publicKey config).
Proof.
  unfold hasEmailJSConfig, getEmailJSConfig. cbv zeta.
  rewrite <-!set_configured.
  destruct (env !! "NEXT_PUBLIC_EMAILJS_SERVICE_ID") as [s|];
    destruct (env !! "NEXT_PUBLIC_EMAILJS_TEMPLATE_ID") as [t|];
    destruct (env !! "NEXT_PUBLIC_EMAILJS_PUBLIC_KEY") as [p|];
    cbn [set default];
    try (rewrite ?andb_false_r; cbn [andb];
         split; [split; [done|by intros [? ?]]|];
         split; [split; [by intros [? ?]|by intros (? & ? & ?)]|done]).
  destruct (truthy (VStr s) && truthy (VStr t) && truthy (VStr p)) eqn:Hall.
  - apply andb_true_iff in Hall as [[-> ->]%andb_true_iff ->].
    split; [by split; [eexists|]|]. split; [by split; [|eexists]|].
    by intros ? [= <-].
  - split; [split; [done|by intros [? ?]]|]. split; [|done].
    split; [by intros [? ?]|]. intros (Hs & Ht & Hp).
    by rewrite Hs, Ht, Hp in Hall.
Qed.

(** X26. [getEnvSafe] never throws for a variable that is unset: it
    returns the variables as they are whenever the service account parses,
    an unset or empty service account parses to none, and the only error it
    throws is "Failed to parse FIREBASE_SERVICE_ACCOUNT: ...", for a
    service account that is set. *)
Theorem getEnvSafe_total env :
  (∀ account,
     parseFirebaseServiceAccount JSON_parse (env !! "FIREBASE_SERVICE_ACCOUNT")
     = returned account →
     ∃ result, getEnvSafe JSON_parse env = returned result
       ∧ safe_FIREBASE_SERVICE_ACCOUNT result = account
       ∧ safe_GEMINI_API_KEY result = env !! "GEMINI_API_KEY"
       ∧ safe_PAYPAL_CLIENT_ID result = env !! "PAYPAL_CLIENT_ID"
       ∧ safe_PAYPAL_CLIENT_SECRET result = env !! "PAYPAL_CLIENT_SECRET")
  ∧ (¬ configured env "FIREBASE_SERVICE_ACCOUNT" →
     parseFirebaseServiceAccount JSON_parse (env !! "FIREBASE_SERVICE_ACCOUNT")
     = returned None)
  ∧ (∀ e, getEnvSafe JSON_parse env = thrown e →
          configured env "FIREBASE_SERVICE_ACCOUNT"
          ∧ ∃ reason, e = mkError ("Failed to parse FIREBASE_SERVICE_ACCOUNT: "
                                   +:+ reason)).
Proof.
  unfold getEnvSafe, getOptionalEnv. cbv zeta. split; [|split].
  - intros account ->. by eexists.
  - intros Hno. unfold parseFirebaseServiceAccount.
    pose proof (set_configured env "FIREBASE_SERVICE_ACCOUNT") as Hset.
    destruct (set _); [|done]. destruct Hno. by apply Hset.
  - intros e. unfold parseFirebaseServiceAccount.
    pose proof (set_configured env "FIREBASE_SERVICE_ACCOUNT") as Hset.
    destruct (set _); cbn [negb]; [|done].
    intros He. split; [by apply Hset|].
    destruct (JSON_parse _) as [[p k c|]|e'].
    + destruct (isString p && isString k && isString c); [done|].
      injection He as <-. by eexists.
    + injection He as <-. by eexists.
    + injection He as <-. by eexists.
Qed.

End env.

(** ** The further properties on concrete inputs *)

Section further_examples.
Import Reference.

(** A second row whose second cell is an object. *)
Lemma export_validation_reports_first_witness :
  Forall validRow [VArr [VStr "Date"]]
  ∧ ExcelExport.error
      (ExcelExport.validateDataBeforeExport
         (Some [VArr [VStr "Date"]; VArr [VStr "x"; VObj]]))
    = Some "Invalid cell type at row 2, column 2".
Proof.
  assert (Forall validRow [VArr [VStr "Date"]]) as Hpre
    by (repeat constructor).
  split; [exact Hpre|].
  assert (Forall allowedCell [VStr "x"]) as Hcells by (repeat constructor).
  assert (¬ allowedCell VObj) as Hobj by (simpl; tauto).
  exact (proj2 (export_validation_reports_first [VArr [VStr "Date"]]
                  (VArr [VStr "x"; VObj]) [] Hpre)
           [VStr "x"] VObj [] eq_refl Hcells Hobj).
Defined.

(** The example matrix is written under the name given. *)
Lemma export_writes_valid_witness :
  VArr <$> exampleMatrix ≠ []
  ∧ Forall validRow (VArr <$> exampleMatrix)
  ∧ ExcelExport.exportToExcel None (Some (VArr <$> exampleMatrix)) "out.xlsx"
    = ([ExcelExport.sheetCreated;
        ExcelExport.workbookCreated
          (ExcelExport.buildWorksheet (VArr <$> exampleMatrix));
        ExcelExport.writeFile "out.xlsx"], None).
Proof.
  assert (VArr <$> exampleMatrix ≠ []) as Hne by discriminate.
  assert (Forall validRow (VArr <$> exampleMatrix)) as Hall
    by (repeat constructor).
  split; [exact Hne|]. split; [exact Hall|].
  exact (proj1 (export_writes_valid (H := runtime) (VArr <$> exampleMatrix)
                  "out.xlsx" Hne Hall)).
Defined.

Lemma table_bounds_within_witness :
  VArr <$> exampleMatrix ≠ []
  ∧ ExcelExport.startRow
      (ExcelExport.findTransactionTableBounds (VArr <$> exampleMatrix))
    = ExcelExport.headerRow
        (ExcelExport.findTransactionTableBounds (VArr <$> exampleMatrix)).
Proof.
  assert (VArr <$> exampleMatrix ≠ []) as Hne by discriminate.
  split; [exact Hne|].
  exact (proj1 (proj2 (table_bounds_within (H := runtime)
                         (VArr <$> exampleMatrix) Hne))).
Defined.

(** The example document: two header rows, then the titles at row 2. *)
Lemma formatter_rows_witness :
  PdfUtils.transactions exampleDocument ≠ []
  ∧ (PdfUtils.formatStructuredDataForExcel (Some exampleDocument)).2 !! 2%nat
    = Some PdfUtils.transactionHeaders.
Proof.
  assert (PdfUtils.transactions exampleDocument ≠ []) as Hne by discriminate.
  split; [exact Hne|].
  refine (proj1 (formatter_rows (H := runtime) exampleDocument Hne _)).
  intros _. vm_compute. lia.
Defined.

Lemma formatted_table_bounds_witness :
  PdfUtils.transactions exampleDocument ≠ []
  ∧ ExcelExport.findTransactionTableBounds
      (VArr <$> (PdfUtils.formatStructuredDataForExcel
                   (Some exampleDocument)).2)
    = {| ExcelExport.startRow := 2; ExcelExport.endRow := 3;
         ExcelExport.headerRow := 2 |}.
Proof.
  assert (PdfUtils.transactions exampleDocument ≠ []) as Hne by discriminate.
  split; [exact Hne|].
  refine (formatted_table_bounds (H := runtime) exampleDocument Hne _ _).
  - intros _. vm_compute. lia.
  - intros t Ht. apply list_elem_of_singleton in Ht. subst t. reflexivity.
Defined.

(** The signal fires during the recognition of the second of five pages. *)
Lemma cancelled_mid_scan_witness :
  Forall tolerable fivePages
  ∧ (Page.convertPdfPagesToImageUrisIncremental (Some 4%nat) fivePages
       Page.start).2
    = thrown conversionCancelled
  ∧ Page.ocrTextFromAllPages
      (Page.convertPdfPagesToImageUrisIncremental (Some 4%nat) fivePages
         Page.start).1
    = "one" +:+ Page.newline +:+ Page.newline
      +:+ "two" +:+ Page.newline +:+ Page.newline.
Proof.
  assert (Forall tolerable fivePages) as Hall.
  { repeat (apply Forall_cons; split;
            [split; [eexists; reflexivity|simpl; auto]|]).
    constructor. }
  split; [exact Hall|].
  assert (fivePages ≠ []) as Hne by discriminate.
  assert (4 < Page.clock Page.start + 2 * length fivePages)%nat as Hlt
    by (vm_compute; lia).
  pose proof (cancelled_mid_scan 4 fivePages Page.start Hall Hne Hlt) as Hrun.
  split.
  - exact (f_equal snd Hrun).
  - exact (f_equal (λ r, Page.ocrTextFromAllPages r.1) Hrun).
Defined.

(** A gateway timeout is retried. *)
Lemma retryable_errors_witness :
  Errors.isRetryableError (Errors.NetworkError "timeout" (Some 504%Q) None)
  = true
  ∧ Errors.isValidationError
      (Errors.NetworkError "timeout" (Some 504%Q) None) = false.
Proof.
  assert (Errors.isRetryableError
            (Errors.NetworkError "timeout" (Some 504%Q) None) = true) as Hr
    by reflexivity.
  split; [exact Hr|].
  exact (proj1 (proj2 (retryable_errors _ Hr))).
Defined.

(** A validation error without a message. *)
Lemma friendly_message_empty_witness :
  Errors.getUserFriendlyErrorMessage (Errors.ValidationError "" None VNull)
  = ""
  ∧ Errors.getErrorMessage (Errors.ValidationError "" None VNull) = "".
Proof.
  assert (Errors.getUserFriendlyErrorMessage
            (Errors.ValidationError "" None VNull) = "") as Hm
    by reflexivity.
  split; [exact Hm|].
  exact (proj1 (friendly_message_empty _ Hm)).
Defined.

(** A page of three items, the second without a string. *)
Lemma text_extraction_witness :
  let page :=
    {| PdfText.getPage := None;
       PdfText.getTextContent := returned [Some "Date"; None; Some "Balance"] |}
  in
  let pdf := {| PdfText.pages := [page]; PdfText.destroy := None |} in
  Forall readable (PdfText.pages pdf)
  ∧ (PdfText.extractTextFromPdf None (returned pdf) Page.start).2
    = returned "Date  Balance".
Proof.
  cbv zeta.
  set (pdf := {| PdfText.pages := _; PdfText.destroy := None |}).
  assert (Forall readable (PdfText.pages pdf)) as Hall.
  { repeat constructor. by eexists. }
  split; [exact Hall|].
  exact (f_equal snd (proj1 (text_extraction pdf Page.start Hall))).
Defined.

End further_examples.
